(** * D3D12CaptureManager: capture-time bookkeeping

    A shallow embedding of [framework/encode/d3d12_capture_manager.h]
    (class [gfxrecon::encode::D3D12CaptureManager]) together with the
    properties its specification states about it.

    The header defines a handful of member functions inline; those are
    embedded as written.  Members that the header only declares are
    modelled from the specification and are marked as such. *)

From Stdlib Require Import ZArith Lia List.
From stdpp Require Import base numbers functions gmap sets list.

Local Open Scope Z_scope.

(** ** Machine-level data *)

(** A pointer is its address; [nullptr] is address 0. *)
Definition Ptr : Type := Z.
Definition nullptr : Ptr := 0.

(** An out-parameter of type [void**]: [None] when the pointer itself is
    [nullptr], otherwise [Some p] where [p] is the pointer it refers to. *)
Definition OutPtr : Type := option Ptr.

(** [uint32_t] arithmetic wraps modulo 2^32. *)
Definition uint32_modulus : Z := 2 ^ 32.
Definition wrap_uint32 (z : Z) : Z := z mod uint32_modulus.
Definition is_uint32 (z : Z) : Prop := 0 <= z < uint32_modulus.

(** [HRESULT] is a signed 32-bit status; the platform macro [SUCCEEDED]
    tests that it is not negative. *)
Definition HRESULT : Type := Z.
Definition SUCCEEDED (hr : HRESULT) : bool := 0 <=? hr.

Definition S_OK : HRESULT := 0.
Definition E_FAIL : HRESULT := -2147467259.

Definition IID : Type := Z.
Definition HandleId : Type := Z.
Definition ApiCallId : Type := Z.
Definition ThreadId : Type := nat.

Definition D3D12_DRED_ENABLEMENT : Type := Z.
Definition D3D12_DRED_ENABLEMENT_SYSTEM_CONTROLLED : D3D12_DRED_ENABLEMENT := 0.
Definition D3D12_DRED_ENABLEMENT_FORCED_OFF : D3D12_DRED_ENABLEMENT := 1.
Definition D3D12_DRED_ENABLEMENT_FORCED_ON : D3D12_DRED_ENABLEMENT := 2.

(** ** Per-thread call scope

    [static thread_local uint32_t call_scope_]: one counter per thread,
    zero-initialised when the thread starts.  The variable is static, so
    it lives beside the manager instance, not inside it. *)

Definition CallScope : Type := ThreadId -> Z.

Definition initial_call_scope : CallScope := fun _ => 0.

(** [uint32_t IncrementCallScope() { return ++call_scope_; }] *)
Definition IncrementCallScope (tid : ThreadId) (call_scope_ : CallScope) : Z * CallScope :=
  let v := wrap_uint32 (call_scope_ tid + 1) in
  (v, <[tid := v]> call_scope_).

(** [uint32_t DecrementCallScope() { return --call_scope_; }] *)
Definition DecrementCallScope (tid : ThreadId) (call_scope_ : CallScope) : Z * CallScope :=
  let v := wrap_uint32 (call_scope_ tid - 1) in
  (v, <[tid := v]> call_scope_).

(** [n] consecutive increments on one thread, none of them matched by a
    decrement. *)
Fixpoint increments (n : nat) (tid : ThreadId) (call_scope_ : CallScope) : CallScope :=
  match n with
  | O => call_scope_
  | S k => snd (IncrementCallScope tid (increments k tid call_scope_))
  end.

(** ** The state tracker, seen from the capture manager

    [Dx12StateTracker] is defined in [encode/dx12_state_tracker.h].  The
    capture manager only ever calls its member functions, so the tracker
    is represented by the member calls it has received, oldest first. *)

Inductive TrackerCall : Type :=
| AddEntry (riid : IID) (handle : Ptr) (call_id : ApiCallId)
    (create_object_wrapper : Ptr) (parameter_buffer : list Byte.byte)
| TrackCommand (GetHandlesFunc GetHandlesArgs : Type) (list_wrapper : Ptr)
    (call_id : ApiCallId) (parameter_buffer : list Byte.byte)
    (func : GetHandlesFunc) (args : GetHandlesArgs)
| RemoveEntry (wrapper : Ptr)
| TrackRelease (wrapper : Ptr).

Record Dx12StateTracker : Type := { received_calls : list TrackerCall }.

Definition call_tracker (c : TrackerCall) (t : Dx12StateTracker) : Dx12StateTracker :=
  {| received_calls := received_calls t ++ [c] |}.

Definition is_AddEntry (c : TrackerCall) : bool :=
  match c with AddEntry _ _ _ _ _ => true | _ => false end.

Definition is_RemoveEntry (c : TrackerCall) : bool :=
  match c with RemoveEntry _ => true | _ => false end.

Definition is_TrackCommand (c : TrackerCall) : bool :=
  match c with TrackCommand _ _ _ _ _ _ _ => true | _ => false end.

(** How many of the calls in a log satisfy [p]. *)
Definition count_calls (p : TrackerCall -> bool) (l : list TrackerCall) : nat :=
  length (List.filter p l).

(** ** Capture manager state *)

(** The part of [CaptureManager::ThreadData] that the header reads. *)
Record ThreadData : Type := {
  call_id_ : ApiCallId;
  parameter_buffer_ : list Byte.byte
}.

(** A finished call record, as handed to the trace sink. *)
Record CallRecord : Type := {
  record_thread : ThreadId;
  record_data : option ThreadData
}.

(** Modelled from the spec: the declaration of [EnableDREDInfo] is not in
    the header.  The device-removal-diagnostics settings are recorded as
    effective values keyed by an object id; there is one value for each of
    the three setters the header declares hooks for. *)
Record EnableDREDInfo : Type := {
  dred_settings1_object_id : HandleId;
  set_auto_breadcrumbs_enablement_ : D3D12_DRED_ENABLEMENT;
  set_breadcrumb_context_enablement_ : D3D12_DRED_ENABLEMENT;
  set_page_fault_enablement_ : D3D12_DRED_ENABLEMENT
}.

(** A dispatch table: one native function pointer per slot. *)
Definition DispatchTable : Type := list Ptr.

(** The data members of [D3D12CaptureManager], preceded by what the
    header reads of its base class ([GetCaptureMode], [GetThreadData])
    and by the two external collaborators its calls reach: the trace sink
    (through [EndMethodCallCapture]) and the image renderer (through
    [TakeScreenshot]). *)
Record D3D12CaptureManager : Type := {
  capture_mode_ : Z;
  thread_data_ : ThreadId -> option ThreadData;
  trace_sink_ : list CallRecord;
  frame_captures_ : list Ptr;
  screenshots_enabled_ : bool;
  content_captures_ : list Ptr;
  mapped_resources_ : gset Z;
  dxgi_dispatch_table_ : DispatchTable;
  d3d12_dispatch_table_ : DispatchTable;
  debug_layer_enabled_ : bool;
  debug_device_lost_enabled_ : bool;
  track_enable_debug_layer_object_id_ : HandleId;
  track_enable_dred_info_ : EnableDREDInfo;
  state_tracker_ : option Dx12StateTracker
}.

Definition with_trace_sink (v : list CallRecord) (m : D3D12CaptureManager) : D3D12CaptureManager :=
  {| capture_mode_ := capture_mode_ m; thread_data_ := thread_data_ m;
     trace_sink_ := v; frame_captures_ := frame_captures_ m;
     screenshots_enabled_ := screenshots_enabled_ m;
     content_captures_ := content_captures_ m;
     mapped_resources_ := mapped_resources_ m;
     dxgi_dispatch_table_ := dxgi_dispatch_table_ m;
     d3d12_dispatch_table_ := d3d12_dispatch_table_ m;
     debug_layer_enabled_ := debug_layer_enabled_ m;
     debug_device_lost_enabled_ := debug_device_lost_enabled_ m;
     track_enable_debug_layer_object_id_ := track_enable_debug_layer_object_id_ m;
     track_enable_dred_info_ := track_enable_dred_info_ m;
     state_tracker_ := state_tracker_ m |}.

Definition with_frame_captures (v : list Ptr) (m : D3D12CaptureManager) : D3D12CaptureManager :=
  {| capture_mode_ := capture_mode_ m; thread_data_ := thread_data_ m;
     trace_sink_ := trace_sink_ m; frame_captures_ := v;
     screenshots_enabled_ := screenshots_enabled_ m;
     content_captures_ := content_captures_ m;
     mapped_resources_ := mapped_resources_ m;
     dxgi_dispatch_table_ := dxgi_dispatch_table_ m;
     d3d12_dispatch_table_ := d3d12_dispatch_table_ m;
     debug_layer_enabled_ := debug_layer_enabled_ m;
     debug_device_lost_enabled_ := debug_device_lost_enabled_ m;
     track_enable_debug_layer_object_id_ := track_enable_debug_layer_object_id_ m;
     track_enable_dred_info_ := track_enable_dred_info_ m;
     state_tracker_ := state_tracker_ m |}.

Definition with_content_captures (v : list Ptr) (m : D3D12CaptureManager) : D3D12CaptureManager :=
  {| capture_mode_ := capture_mode_ m; thread_data_ := thread_data_ m;
     trace_sink_ := trace_sink_ m; frame_captures_ := frame_captures_ m;
     screenshots_enabled_ := screenshots_enabled_ m;
     content_captures_ := v;
     mapped_resources_ := mapped_resources_ m;
     dxgi_dispatch_table_ := dxgi_dispatch_table_ m;
     d3d12_dispatch_table_ := d3d12_dispatch_table_ m;
     debug_layer_enabled_ := debug_layer_enabled_ m;
     debug_device_lost_enabled_ := debug_device_lost_enabled_ m;
     track_enable_debug_layer_object_id_ := track_enable_debug_layer_object_id_ m;
     track_enable_dred_info_ := track_enable_dred_info_ m;
     state_tracker_ := state_tracker_ m |}.

Definition with_mapped_resources (v : gset Z) (m : D3D12CaptureManager) : D3D12CaptureManager :=
  {| capture_mode_ := capture_mode_ m; thread_data_ := thread_data_ m;
     trace_sink_ := trace_sink_ m; frame_captures_ := frame_captures_ m;
     screenshots_enabled_ := screenshots_enabled_ m;
     content_captures_ := content_captures_ m;
     mapped_resources_ := v;
     dxgi_dispatch_table_ := dxgi_dispatch_table_ m;
     d3d12_dispatch_table_ := d3d12_dispatch_table_ m;
     debug_layer_enabled_ := debug_layer_enabled_ m;
     debug_device_lost_enabled_ := debug_device_lost_enabled_ m;
     track_enable_debug_layer_object_id_ := track_enable_debug_layer_object_id_ m;
     track_enable_dred_info_ := track_enable_dred_info_ m;
     state_tracker_ := state_tracker_ m |}.

Definition with_dxgi_dispatch_table (v : DispatchTable) (m : D3D12CaptureManager) : D3D12CaptureManager :=
  {| capture_mode_ := capture_mode_ m; thread_data_ := thread_data_ m;
     trace_sink_ := trace_sink_ m; frame_captures_ := frame_captures_ m;
     screenshots_enabled_ := screenshots_enabled_ m;
     content_captures_ := content_captures_ m;
     mapped_resources_ := mapped_resources_ m;
     dxgi_dispatch_table_ := v;
     d3d12_dispatch_table_ := d3d12_dispatch_table_ m;
     debug_layer_enabled_ := debug_layer_enabled_ m;
     debug_device_lost_enabled_ := debug_device_lost_enabled_ m;
     track_enable_debug_layer_object_id_ := track_enable_debug_layer_object_id_ m;
     track_enable_dred_info_ := track_enable_dred_info_ m;
     state_tracker_ := state_tracker_ m |}.

Definition with_d3d12_dispatch_table (v : DispatchTable) (m : D3D12CaptureManager) : D3D12CaptureManager :=
  {| capture_mode_ := capture_mode_ m; thread_data_ := thread_data_ m;
     trace_sink_ := trace_sink_ m; frame_captures_ := frame_captures_ m;
     screenshots_enabled_ := screenshots_enabled_ m;
     content_captures_ := content_captures_ m;
     mapped_resources_ := mapped_resources_ m;
     dxgi_dispatch_table_ := dxgi_dispatch_table_ m;
     d3d12_dispatch_table_ := v;
     debug_layer_enabled_ := debug_layer_enabled_ m;
     debug_device_lost_enabled_ := debug_device_lost_enabled_ m;
     track_enable_debug_layer_object_id_ := track_enable_debug_layer_object_id_ m;
     track_enable_dred_info_ := track_enable_dred_info_ m;
     state_tracker_ := state_tracker_ m |}.

Definition with_debug_layer_object_id (v : HandleId) (m : D3D12CaptureManager) : D3D12CaptureManager :=
  {| capture_mode_ := capture_mode_ m; thread_data_ := thread_data_ m;
     trace_sink_ := trace_sink_ m; frame_captures_ := frame_captures_ m;
     screenshots_enabled_ := screenshots_enabled_ m;
     content_captures_ := content_captures_ m;
     mapped_resources_ := mapped_resources_ m;
     dxgi_dispatch_table_ := dxgi_dispatch_table_ m;
     d3d12_dispatch_table_ := d3d12_dispatch_table_ m;
     debug_layer_enabled_ := debug_layer_enabled_ m;
     debug_device_lost_enabled_ := debug_device_lost_enabled_ m;
     track_enable_debug_layer_object_id_ := v;
     track_enable_dred_info_ := track_enable_dred_info_ m;
     state_tracker_ := state_tracker_ m |}.

Definition with_dred_info (v : EnableDREDInfo) (m : D3D12CaptureManager) : D3D12CaptureManager :=
  {| capture_mode_ := capture_mode_ m; thread_data_ := thread_data_ m;
     trace_sink_ := trace_sink_ m; frame_captures_ := frame_captures_ m;
     screenshots_enabled_ := screenshots_enabled_ m;
     content_captures_ := content_captures_ m;
     mapped_resources_ := mapped_resources_ m;
     dxgi_dispatch_table_ := dxgi_dispatch_table_ m;
     d3d12_dispatch_table_ := d3d12_dispatch_table_ m;
     debug_layer_enabled_ := debug_layer_enabled_ m;
     debug_device_lost_enabled_ := debug_device_lost_enabled_ m;
     track_enable_debug_layer_object_id_ := track_enable_debug_layer_object_id_ m;
     track_enable_dred_info_ := v;
     state_tracker_ := state_tracker_ m |}.

Definition with_state_tracker (v : option Dx12StateTracker) (m : D3D12CaptureManager) : D3D12CaptureManager :=
  {| capture_mode_ := capture_mode_ m; thread_data_ := thread_data_ m;
     trace_sink_ := trace_sink_ m; frame_captures_ := frame_captures_ m;
     screenshots_enabled_ := screenshots_enabled_ m;
     content_captures_ := content_captures_ m;
     mapped_resources_ := mapped_resources_ m;
     dxgi_dispatch_table_ := dxgi_dispatch_table_ m;
     d3d12_dispatch_table_ := d3d12_dispatch_table_ m;
     debug_layer_enabled_ := debug_layer_enabled_ m;
     debug_device_lost_enabled_ := debug_device_lost_enabled_ m;
     track_enable_debug_layer_object_id_ := track_enable_debug_layer_object_id_ m;
     track_enable_dred_info_ := track_enable_dred_info_ m;
     state_tracker_ := v |}.

(** The calls the tracker of [m] has received; none when there is no
    tracker. *)
Definition tracker_log (m : D3D12CaptureManager) : list TrackerCall :=
  match state_tracker_ m with
  | Some t => received_calls t
  | None => []
  end.

(** ** Inline members of the header *)

(** [void InitDxgiDispatchTable(const DxgiDispatchTable& dispatch_table)] *)
Definition InitDxgiDispatchTable (dispatch_table : DispatchTable) (m : D3D12CaptureManager) : D3D12CaptureManager :=
  with_dxgi_dispatch_table dispatch_table m.

(** [void InitD3D12DispatchTable(const D3D12DispatchTable& dispatch_table)] *)
Definition InitD3D12DispatchTable (dispatch_table : DispatchTable) (m : D3D12CaptureManager) : D3D12CaptureManager :=
  with_d3d12_dispatch_table dispatch_table m.

Definition GetDxgiDispatchTable (m : D3D12CaptureManager) : DispatchTable := dxgi_dispatch_table_ m.
Definition GetD3D12DispatchTable (m : D3D12CaptureManager) : DispatchTable := d3d12_dispatch_table_ m.

(** [CaptureManager::GetCaptureMode()] and [CaptureManager::GetThreadData()]
    of the base class, as the header uses them. *)
Definition GetCaptureMode (m : D3D12CaptureManager) : Z := capture_mode_ m.
Definition GetThreadData (tid : ThreadId) (m : D3D12CaptureManager) : option ThreadData :=
  thread_data_ m tid.

(** [format::HandleId GetEnableDebugLayerObjectId()] *)
Definition GetEnableDebugLayerObjectId (m : D3D12CaptureManager) : HandleId :=
  track_enable_debug_layer_object_id_ m.

(** [const EnableDREDInfo& GetEnableDREDInfo()] *)
Definition GetEnableDREDInfo (m : D3D12CaptureManager) : EnableDREDInfo :=
  track_enable_dred_info_ m.

Definition DestroyStateTracker (m : D3D12CaptureManager) : D3D12CaptureManager :=
  with_state_tracker None m.

(** Modelled from the spec: [CaptureManager::EndMethodCallCapture] belongs
    to the base class, which is not in the header.  It finalizes the
    current thread's call record and hands it to the trace sink. *)
Definition EndMethodCallCapture (tid : ThreadId) (m : D3D12CaptureManager) : D3D12CaptureManager :=
  with_trace_sink
    (trace_sink_ m ++ [{| record_thread := tid; record_data := GetThreadData tid m |}]) m.

(** [assert(p != nullptr)] followed by uses of [p]: the call goes on with
    the object when there is one and does not complete otherwise. *)
Definition assert_not_null {A : Type} (p : option A) : option A := p.

Section InlineMembers.

(** [CaptureManager::kModeTrack], an enumerator of the base class; its
    value is not fixed by the header. *)
Variable kModeTrack : Z.

(** [(GetCaptureMode() & kModeTrack) == kModeTrack] *)
Definition tracking (m : D3D12CaptureManager) : bool :=
  Z.land (GetCaptureMode m) kModeTrack =? kModeTrack.

(** [template <typename ParentWrapper> void EndCreateMethodCallCapture(
      HRESULT result, REFIID riid, void** handle, ParentWrapper* create_object_wrapper)].
    The tracker receives [handle] and reads the created object through
    it; the logged call carries that object. *)
Definition EndCreateMethodCallCapture (tid : ThreadId) (result : HRESULT) (riid : IID)
    (handle : OutPtr) (create_object_wrapper : Ptr)
    (m : D3D12CaptureManager) : option D3D12CaptureManager :=
  m1 ← (if tracking m && SUCCEEDED result then
          match handle with
          | Some object =>
              if negb (object =? nullptr) then
                tracker ← assert_not_null (state_tracker_ m);
                thread_data ← assert_not_null (GetThreadData tid m);
                Some (with_state_tracker
                        (Some (call_tracker
                                 (AddEntry riid object (call_id_ thread_data)
                                    create_object_wrapper (parameter_buffer_ thread_data))
                                 tracker)) m)
              else Some m
          | None => Some m
          end
        else Some m);
  Some (EndMethodCallCapture tid m1).

(** [template <typename GetHandlesFunc, typename... GetHandlesArgs>
     void EndCommandListMethodCallCapture(ID3D12GraphicsCommandList_Wrapper* list_wrapper,
                                          GetHandlesFunc func, GetHandlesArgs... args)] *)
Definition EndCommandListMethodCallCapture {GetHandlesFunc GetHandlesArgs : Type}
    (tid : ThreadId) (list_wrapper : Ptr) (func : GetHandlesFunc) (args : GetHandlesArgs)
    (m : D3D12CaptureManager) : option D3D12CaptureManager :=
  m1 ← (if tracking m then
          tracker ← assert_not_null (state_tracker_ m);
          thread_data ← assert_not_null (GetThreadData tid m);
          Some (with_state_tracker
                  (Some (call_tracker
                           (TrackCommand GetHandlesFunc GetHandlesArgs list_wrapper
                              (call_id_ thread_data) (parameter_buffer_ thread_data) func args)
                           tracker)) m)
        else Some m);
  Some (EndMethodCallCapture tid m1).

(** [template <typename Wrapper> void ProcessWrapperDestroy(Wrapper* wrapper)].
    There is no assertion here; the two calls go through [state_tracker_]
    and need it to be there. *)
Definition ProcessWrapperDestroy (wrapper : Ptr)
    (m : D3D12CaptureManager) : option D3D12CaptureManager :=
  if tracking m then
    tracker ← state_tracker_ m;
    Some (with_state_tracker
            (Some (call_tracker (TrackRelease wrapper)
                     (call_tracker (RemoveEntry wrapper) tracker))) m)
  else Some m.

(** What the assertions of the end-of-call functions ask for: in tracking
    mode there is a state tracker and the calling thread has its data. *)
Definition tracking_ready (tid : ThreadId) (m : D3D12CaptureManager) : Prop :=
  tracking m = true -> is_Some (state_tracker_ m) /\ is_Some (GetThreadData tid m).

(** ** Presentation *)

(** Modelled from the spec: the body of [TakeScreenshot] is not in the
    header.  The frame capture is delegated to the external image
    renderer, which receives the swapchain. *)
Definition TakeScreenshot (swapchain_wrapper : Ptr) (m : D3D12CaptureManager) : D3D12CaptureManager :=
  with_frame_captures (frame_captures_ m ++ [swapchain_wrapper]) m.

(** Modelled from the spec: the body of [PostPresent] is not in the
    header.  The frame capture is gated to top-level calls (call-scope
    depth 1) and to the capture configuration. *)
Definition PostPresent (tid : ThreadId) (call_scope_ : CallScope) (wrapper : Ptr)
    (m : D3D12CaptureManager) : D3D12CaptureManager :=
  if (call_scope_ tid =? 1) && screenshots_enabled_ m then TakeScreenshot wrapper m else m.

(** Modelled from the spec: the body of [PostProcess_IDXGISwapChain_Present]
    is not in the header.  After a successful present the manager may
    trigger the frame capture. *)
Definition PostProcess_IDXGISwapChain_Present (tid : ThreadId) (call_scope_ : CallScope)
    (wrapper : Ptr) (result : HRESULT) (sync_interval flags : Z)
    (m : D3D12CaptureManager) : D3D12CaptureManager :=
  if SUCCEEDED result then PostPresent tid call_scope_ wrapper m else m.

(** Modelled from the spec: the forwarding stub of [IDXGISwapChain::Present]
    is generated code outside the header.  Its control flow is: increment
    the call scope, call the native entry point, run the post-process hook
    and emit the call record, decrement the call scope; the native result
    is returned unchanged.  [native_result] is what the driver returned. *)
Definition IDXGISwapChain_Present (tid : ThreadId) (native_result : HRESULT)
    (wrapper : Ptr) (sync_interval flags : Z)
    (g : CallScope * D3D12CaptureManager) : HRESULT * (CallScope * D3D12CaptureManager) :=
  let '(call_scope_, m) := g in
  let '(_, scope_in) := IncrementCallScope tid call_scope_ in
  let result := native_result in
  let m1 := PostProcess_IDXGISwapChain_Present tid scope_in wrapper result sync_interval flags m in
  let m2 := EndMethodCallCapture tid m1 in
  let '(_, scope_out) := DecrementCallScope tid scope_in in
  (result, (scope_out, m2)).

(** ** Mapping *)

(** Modelled from the spec: the body of [PostProcess_ID3D12Resource_Map]
    is not in the header.  On a successful map that returned a non-null
    pointer the resource joins [mapped_resources_]. *)
Definition PostProcess_ID3D12Resource_Map (wrapper : Ptr) (result : HRESULT)
    (subresource : Z) (data : OutPtr) (m : D3D12CaptureManager) : D3D12CaptureManager :=
  match data with
  | Some mapped =>
      if SUCCEEDED result && negb (mapped =? nullptr)
      then with_mapped_resources ({[ wrapper ]} ∪ mapped_resources_ m) m
      else m
  | None => m
  end.

(** Modelled from the spec: the body of [PreProcess_ID3D12Resource_Unmap]
    is not in the header.  The resource leaves [mapped_resources_]; when
    write monitoring is unavailable for it ([has_write_watch] is false),
    the content of the mapped range is captured before returning. *)
Definition PreProcess_ID3D12Resource_Unmap (wrapper : Ptr) (has_write_watch : bool)
    (subresource : Z) (m : D3D12CaptureManager) : D3D12CaptureManager :=
  let m1 :=
    if negb has_write_watch
    then with_content_captures (content_captures_ m ++ [wrapper]) m
    else m in
  with_mapped_resources (mapped_resources_ m1 ∖ {[ wrapper ]}) m1.

(** How many times [r] occurs among the mapped resources. *)
Definition mapped_count (r : Ptr) (m : D3D12CaptureManager) : nat :=
  length (filter (fun x => x = r) (elements (mapped_resources_ m))).

End InlineMembers.

(** ** Swapchain buffers *)

Definition DXGI_FORMAT : Type := Z.

(** [IID_ID3D12Resource], 696442be-a72e-4059-bc79-5b5c98040fad. *)
Definition IID_ID3D12Resource : IID := 0x696442bea72e4059bc795b5c98040fad.

(** Modelled from the spec: the swapchain's tracking info is declared
    outside the header.  It holds the ordered sequence of buffer
    references (as long as the current buffer count), the format, the
    presentation queue and the frame counter. *)
Record IDXGISwapChainInfo : Type := {
  child_images : list Ptr;
  swapchain_format : DXGI_FORMAT;
  present_queue : Ptr;
  frame_counter : Z
}.

Section SwapChain.

Variable kModeTrack : Z.

(** [IDXGISwapChain::GetBuffer] of the driver: the buffer object that the
    swapchain [wrapper] holds at an index. *)
Variable GetBuffer : Ptr -> nat -> Ptr.

(** Modelled from the spec: a back buffer is driver-allocated, so its
    entry is synthesized as if it had been created: in tracking mode the
    tracker receives [AddEntry] for it, with the swapchain as owner. *)
Definition register_buffer (tid : ThreadId) (wrapper buffer : Ptr)
    (m : D3D12CaptureManager) : option D3D12CaptureManager :=
  if tracking kModeTrack m then
    tracker ← assert_not_null (state_tracker_ m);
    thread_data ← assert_not_null (GetThreadData tid m);
    Some (with_state_tracker
            (Some (call_tracker
                     (AddEntry IID_ID3D12Resource buffer (call_id_ thread_data)
                        wrapper (parameter_buffer_ thread_data))
                     tracker)) m)
  else Some m.

(** Modelled from the spec: registering a buffer array registers each of
    its buffers, in order. *)
Fixpoint register_buffers (tid : ThreadId) (wrapper : Ptr) (buffers : list Ptr)
    (m : D3D12CaptureManager) : option D3D12CaptureManager :=
  match buffers with
  | [] => Some m
  | buffer :: rest =>
      m1 ← register_buffer tid wrapper buffer m;
      register_buffers tid wrapper rest m1
  end.

(** Modelled from the spec: deregistering a buffer set deregisters each of
    its buffers, in order.  Dropping the manager's reference to a buffer
    destroys its wrapper, which runs the header's [ProcessWrapperDestroy]
    on it. *)
Fixpoint deregister_buffers (buffers : list Ptr)
    (m : D3D12CaptureManager) : option D3D12CaptureManager :=
  match buffers with
  | [] => Some m
  | buffer :: rest =>
      m1 ← ProcessWrapperDestroy kModeTrack buffer m;
      deregister_buffers rest m1
  end.

(** Modelled from the spec: the body of [PreAcquireSwapChainImages] is not
    in the header.  It retrieves each of the swapchain's [image_count]
    buffers and registers it; the buffer array takes that length. *)
Definition PreAcquireSwapChainImages (tid : ThreadId) (wrapper command_queue : Ptr)
    (image_count : Z) (s : IDXGISwapChainInfo * D3D12CaptureManager)
    : option (IDXGISwapChainInfo * D3D12CaptureManager) :=
  let '(info, m) := s in
  let buffers := map (GetBuffer wrapper) (seq 0 (Z.to_nat image_count)) in
  m1 ← register_buffers tid wrapper buffers m;
  Some ({| child_images := buffers;
           swapchain_format := swapchain_format info;
           present_queue := command_queue;
           frame_counter := frame_counter info |}, m1).

(** Modelled from the spec: the body of [ReleaseSwapChainImages] is not in
    the header.  It deregisters the whole current buffer set. *)
Definition ReleaseSwapChainImages (wrapper : Ptr)
    (s : IDXGISwapChainInfo * D3D12CaptureManager)
    : option (IDXGISwapChainInfo * D3D12CaptureManager) :=
  let '(info, m) := s in
  m1 ← deregister_buffers (child_images info) m;
  Some ({| child_images := [];
           swapchain_format := swapchain_format info;
           present_queue := present_queue info;
           frame_counter := frame_counter info |}, m1).

(** Modelled from the spec: the body of [ResizeSwapChainImages] is not in
    the header.  After a successful resize the buffer array is acquired
    again, sized to the new buffer count. *)
Definition ResizeSwapChainImages (tid : ThreadId) (wrapper : Ptr) (result : HRESULT)
    (buffer_count : Z) (s : IDXGISwapChainInfo * D3D12CaptureManager)
    : option (IDXGISwapChainInfo * D3D12CaptureManager) :=
  if SUCCEEDED result
  then PreAcquireSwapChainImages tid wrapper (present_queue (fst s)) buffer_count s
  else Some s.

(** Modelled from the spec: the body of
    [PreProcess_IDXGISwapChain_ResizeBuffers] is not in the header.  It runs
    before the native call and releases the current buffers. *)
Definition PreProcess_IDXGISwapChain_ResizeBuffers (wrapper : Ptr)
    (buffer_count width height : Z) (new_format : DXGI_FORMAT) (flags : Z)
    (s : IDXGISwapChainInfo * D3D12CaptureManager)
    : option (IDXGISwapChainInfo * D3D12CaptureManager) :=
  ReleaseSwapChainImages wrapper s.

(** Modelled from the spec: the body of
    [PostProcess_IDXGISwapChain_ResizeBuffers] is not in the header.  It runs
    after the native call with its result. *)
Definition PostProcess_IDXGISwapChain_ResizeBuffers (tid : ThreadId) (wrapper : Ptr)
    (result : HRESULT) (buffer_count width height : Z) (new_format : DXGI_FORMAT)
    (flags : Z) (s : IDXGISwapChainInfo * D3D12CaptureManager)
    : option (IDXGISwapChainInfo * D3D12CaptureManager) :=
  ResizeSwapChainImages tid wrapper result buffer_count s.

(** Modelled from the spec: the forwarding stub of
    [IDXGISwapChain::ResizeBuffers] is generated code outside the header.
    It drives a resize request as: pre-process hook, native call (whose
    result is [native_result]), post-process hook. *)
Definition resize_request (tid : ThreadId) (native_result : HRESULT) (wrapper : Ptr)
    (buffer_count width height : Z) (new_format : DXGI_FORMAT) (flags : Z)
    (s : IDXGISwapChainInfo * D3D12CaptureManager)
    : option (IDXGISwapChainInfo * D3D12CaptureManager) :=
  s1 ← PreProcess_IDXGISwapChain_ResizeBuffers wrapper buffer_count width height new_format flags s;
  PostProcess_IDXGISwapChain_ResizeBuffers tid wrapper native_result
    buffer_count width height new_format flags s1.

End SwapChain.

(** ** Diagnostics settings *)

Section Diagnostics.

(** [GetCaptureId()] of a wrapper: the object id under which it is
    captured. *)
Variable GetCaptureId : Ptr -> HandleId.

(** Modelled from the spec: the body of
    [PostProcess_ID3D12Debug_EnableDebugLayer] is not in the header.  The
    id of the configuring object is stored as a value. *)
Definition PostProcess_ID3D12Debug_EnableDebugLayer (debug_wrapper : Ptr)
    (m : D3D12CaptureManager) : D3D12CaptureManager :=
  with_debug_layer_object_id (GetCaptureId debug_wrapper) m.

(** Modelled from the spec: same for [ID3D12Debug1]. *)
Definition PostProcess_ID3D12Debug1_EnableDebugLayer (debug1_wrapper : Ptr)
    (m : D3D12CaptureManager) : D3D12CaptureManager :=
  with_debug_layer_object_id (GetCaptureId debug1_wrapper) m.

(** Modelled from the spec: the bodies of the three
    [PostProcess_ID3D12DeviceRemovedExtendedDataSettings*] hooks are not in
    the header.  Each stores the id of the configuring object and the
    value it configured. *)
Definition PostProcess_ID3D12DeviceRemovedExtendedDataSettings_SetAutoBreadcrumbsEnablement
    (dred_wrapper : Ptr) (enablement : D3D12_DRED_ENABLEMENT)
    (m : D3D12CaptureManager) : D3D12CaptureManager :=
  let info := track_enable_dred_info_ m in
  with_dred_info
    {| dred_settings1_object_id := GetCaptureId dred_wrapper;
       set_auto_breadcrumbs_enablement_ := enablement;
       set_breadcrumb_context_enablement_ := set_breadcrumb_context_enablement_ info;
       set_page_fault_enablement_ := set_page_fault_enablement_ info |} m.

(** Modelled from the spec: the hook of [SetBreadcrumbContextEnablement],
    as above. *)
Definition PostProcess_ID3D12DeviceRemovedExtendedDataSettings1_SetBreadcrumbContextEnablement
    (dred1_wrapper : Ptr) (enablement : D3D12_DRED_ENABLEMENT)
    (m : D3D12CaptureManager) : D3D12CaptureManager :=
  let info := track_enable_dred_info_ m in
  with_dred_info
    {| dred_settings1_object_id := GetCaptureId dred1_wrapper;
       set_auto_breadcrumbs_enablement_ := set_auto_breadcrumbs_enablement_ info;
       set_breadcrumb_context_enablement_ := enablement;
       set_page_fault_enablement_ := set_page_fault_enablement_ info |} m.

(** Modelled from the spec: the hook of [SetPageFaultEnablement], as
    above. *)
Definition PostProcess_ID3D12DeviceRemovedExtendedDataSettings_SetPageFaultEnablement
    (dred_wrapper : Ptr) (enablement : D3D12_DRED_ENABLEMENT)
    (m : D3D12CaptureManager) : D3D12CaptureManager :=
  let info := track_enable_dred_info_ m in
  with_dred_info
    {| dred_settings1_object_id := GetCaptureId dred_wrapper;
       set_auto_breadcrumbs_enablement_ := set_auto_breadcrumbs_enablement_ info;
       set_breadcrumb_context_enablement_ := set_breadcrumb_context_enablement_ info;
       set_page_fault_enablement_ := enablement |} m.

End Diagnostics.

(** ** The singleton *)

(** Modelled from the spec: the reference count that [CreateInstance] and
    [DestroyInstance] keep is declared outside the header; it is kept here
    beside the header's [static D3D12CaptureManager* instance_]. *)
Record Singleton : Type := {
  instance_ : option D3D12CaptureManager;
  instance_count_ : nat
}.

Definition no_instance : Singleton := {| instance_ := None; instance_count_ := 0 |}.

(** [static D3D12CaptureManager* Get() { return instance_; }] *)
Definition Get (p : Singleton) : option D3D12CaptureManager := instance_ p.

(** Modelled from the spec: the constructor's body is not in the header.
    It zero-initializes the dispatch tables and the flags. *)
Definition new_D3D12CaptureManager : D3D12CaptureManager :=
  {| capture_mode_ := 0;
     thread_data_ := fun _ => None;
     trace_sink_ := [];
     frame_captures_ := [];
     screenshots_enabled_ := false;
     content_captures_ := [];
     mapped_resources_ := ∅;
     dxgi_dispatch_table_ := [];
     d3d12_dispatch_table_ := [];
     debug_layer_enabled_ := false;
     debug_device_lost_enabled_ := false;
     track_enable_debug_layer_object_id_ := 0;
     track_enable_dred_info_ :=
       {| dred_settings1_object_id := 0;
          set_auto_breadcrumbs_enablement_ := D3D12_DRED_ENABLEMENT_SYSTEM_CONTROLLED;
          set_breadcrumb_context_enablement_ := D3D12_DRED_ENABLEMENT_SYSTEM_CONTROLLED;
          set_page_fault_enablement_ := D3D12_DRED_ENABLEMENT_SYSTEM_CONTROLLED |};
     state_tracker_ := None |}.

(** Modelled from the spec: the body of [CreateInstance] is not in the
    header, which documents it as: creates the capture manager instance
    if none exists, or increments a reference count if an instance
    already exists. *)
Definition CreateInstance (p : Singleton) : bool * Singleton :=
  match instance_ p with
  | None => (true, {| instance_ := Some new_D3D12CaptureManager; instance_count_ := 1 |})
  | Some m => (true, {| instance_ := Some m; instance_count_ := S (instance_count_ p) |})
  end.

(** Modelled from the spec: the body of [DestroyInstance] is not in the
    header, which documents it as: decrement the instance reference
    count, releasing resources when the count reaches zero; ignored if
    the count is already zero. *)
Definition DestroyInstance (p : Singleton) : Singleton :=
  match instance_count_ p with
  | O => p
  | S n =>
      {| instance_ := match n with O => None | S _ => instance_ p end;
         instance_count_ := n |}
  end.

(** The two lifecycle requests, to run sequences of them. *)
Inductive LifecycleRequest : Type := Acquire | Release.

Definition lifecycle_step (p : Singleton) (r : LifecycleRequest) : Singleton :=
  match r with
  | Acquire => snd (CreateInstance p)
  | Release => DestroyInstance p
  end.

Definition run_lifecycle (rs : list LifecycleRequest) (p : Singleton) : Singleton :=
  fold_left lifecycle_step rs p.

(** The count kept by hand: up on acquire, down to no less than zero on
    release. *)
Definition count_step (n : nat) (r : LifecycleRequest) : nat :=
  match r with
  | Acquire => S n
  | Release => Nat.pred n
  end.

(** ** Auxiliary notions used by the statements *)

(** The creation test of the header, as a proposition: the result is a
    success, the output pointer is there and what it refers to is not
    null. *)
Definition created_object (result : HRESULT) (handle : OutPtr) (object : Ptr) : Prop :=
  0 <= result /\ handle = Some object /\ object <> nullptr.

(** When a creation call registers its object: the tracking bit [k] of the
    capture mode is set and the call created an object. *)
Definition registers_entry (k : Z) (m : D3D12CaptureManager) (result : HRESULT)
    (handle : OutPtr) : Prop :=
  Z.testbit (GetCaptureMode m) k = true /\
  0 <= result /\ exists object, handle = Some object /\ object <> nullptr.

(** A manager in recording-with-tracking mode (mode bits 0 and 1 set), with
    a fresh state tracker, whose thread 0 has staged call 7. *)
Definition sample_tracking_manager : D3D12CaptureManager :=
  {| capture_mode_ := 3;
     thread_data_ := fun tid =>
       match tid with
       | O => Some {| call_id_ := 7; parameter_buffer_ := [Byte.x01; Byte.x02] |}
       | S _ => None
       end;
     trace_sink_ := [];
     frame_captures_ := [];
     screenshots_enabled_ := true;
     content_captures_ := [];
     mapped_resources_ := ∅;
     dxgi_dispatch_table_ := [];
     d3d12_dispatch_table_ := [];
     debug_layer_enabled_ := false;
     debug_device_lost_enabled_ := false;
     track_enable_debug_layer_object_id_ := 0;
     track_enable_dred_info_ := track_enable_dred_info_ new_D3D12CaptureManager;
     state_tracker_ := Some {| received_calls := [] |} |}.

(** A manager in recording-only mode (mode bit 0 alone): no state tracker. *)
Definition sample_recording_manager : D3D12CaptureManager :=
  {| capture_mode_ := 1;
     thread_data_ := fun tid =>
       match tid with
       | O => Some {| call_id_ := 7; parameter_buffer_ := [Byte.x01; Byte.x02] |}
       | S _ => None
       end;
     trace_sink_ := [];
     frame_captures_ := [];
     screenshots_enabled_ := true;
     content_captures_ := [];
     mapped_resources_ := ∅;
     dxgi_dispatch_table_ := [];
     d3d12_dispatch_table_ := [];
     debug_layer_enabled_ := false;
     debug_device_lost_enabled_ := false;
     track_enable_debug_layer_object_id_ := 0;
     track_enable_dred_info_ := track_enable_dred_info_ new_D3D12CaptureManager;
     state_tracker_ := None |}.

(** The tracker calls that releasing a list of buffers makes. *)
Definition release_calls (buffers : list Ptr) : list TrackerCall :=
  flat_map (fun buffer => [RemoveEntry buffer; TrackRelease buffer]) buffers.

(** The tracker calls that registering a list of buffers makes. *)
Definition register_calls (wrapper : Ptr) (thread_data : ThreadData) (buffers : list Ptr)
    : list TrackerCall :=
  map (fun buffer => AddEntry IID_ID3D12Resource buffer (call_id_ thread_data) wrapper
                       (parameter_buffer_ thread_data)) buffers.

(** A swapchain holding two buffers. *)
Definition sample_swapchain_info : IDXGISwapChainInfo :=
  {| child_images := [100; 101]; swapchain_format := 28; present_queue := 50;
     frame_counter := 0 |}.

(** The driver's buffers of the sample swapchain: buffer [i] is object
    [200 + i]. *)
Definition sample_GetBuffer (wrapper : Ptr) (index : nat) : Ptr := 200 + Z.of_nat index.

(** The sample wrappers are captured under their address plus 1000. *)
Definition sample_GetCaptureId (wrapper : Ptr) : HandleId := wrapper + 1000.

(** The instance is there exactly when it is referenced. *)
Definition counted (p : Singleton) : Prop :=
  Get p = None <-> instance_count_ p = 0%nat.

(** ** Sequences of calls

    Drivers that run the inline members one after the other, to state how
    they compose. *)

(** One call-scope operation of a thread. *)
Inductive ScopeOp : Type :=
| Enter (tid : ThreadId)
| Leave (tid : ThreadId).

Definition scope_step (call_scope_ : CallScope) (op : ScopeOp) : CallScope :=
  match op with
  | Enter tid => snd (IncrementCallScope tid call_scope_)
  | Leave tid => snd (DecrementCallScope tid call_scope_)
  end.

(** The operations of all threads, in the order in which they happen. *)
Definition run_scope (ops : list ScopeOp) (call_scope_ : CallScope) : CallScope :=
  fold_left scope_step ops call_scope_.

(** Entries minus exits of thread [tid] in a sequence. *)
Fixpoint net_entries (tid : ThreadId) (ops : list ScopeOp) : Z :=
  match ops with
  | [] => 0
  | Enter t :: rest => (if Nat.eqb t tid then 1 else 0) + net_entries tid rest
  | Leave t :: rest => (if Nat.eqb t tid then -1 else 0) + net_entries tid rest
  end.

(** One call of an inline hook, with its arguments. *)
Inductive HookCall : Type :=
| HookEndCreate (tid : ThreadId) (result : HRESULT) (riid : IID) (handle : OutPtr)
    (create_object_wrapper : Ptr)
| HookEndCommandList (GetHandlesFunc GetHandlesArgs : Type) (tid : ThreadId)
    (list_wrapper : Ptr) (func : GetHandlesFunc) (args : GetHandlesArgs)
| HookWrapperDestroy (wrapper : Ptr).

Definition run_hook (kModeTrack : Z) (h : HookCall)
    (m : D3D12CaptureManager) : option D3D12CaptureManager :=
  match h with
  | HookEndCreate tid result riid handle create_object_wrapper =>
      EndCreateMethodCallCapture kModeTrack tid result riid handle create_object_wrapper m
  | HookEndCommandList _ _ tid list_wrapper func args =>
      EndCommandListMethodCallCapture kModeTrack tid list_wrapper func args m
  | HookWrapperDestroy wrapper => ProcessWrapperDestroy kModeTrack wrapper m
  end.

(** The hooks in call order; the run stops at the first call that does
    not complete. *)
Fixpoint run_hooks (kModeTrack : Z) (hs : list HookCall)
    (m : D3D12CaptureManager) : option D3D12CaptureManager :=
  match hs with
  | [] => Some m
  | h :: rest => m1 ← run_hook kModeTrack h m; run_hooks kModeTrack rest m1
  end.

(** The creation produced an object: success result, output pointer there,
    object not null. *)
Definition creation_registers (result : HRESULT) (handle : OutPtr) : bool :=
  (0 <=? result) && match handle with Some object => negb (object =? nullptr) | None => false end.

Definition hook_registers (h : HookCall) : bool :=
  match h with
  | HookEndCreate _ result _ handle _ => creation_registers result handle
  | _ => false
  end.

Definition hook_is_command (h : HookCall) : bool :=
  match h with HookEndCommandList _ _ _ _ _ _ => true | _ => false end.

(** The threads of the end-of-call hooks of a sequence, in call order. *)
Definition hook_threads (hs : list HookCall) : list ThreadId :=
  flat_map (fun h => match h with
                     | HookEndCreate tid _ _ _ _ => [tid]
                     | HookEndCommandList _ _ tid _ _ _ => [tid]
                     | HookWrapperDestroy _ => []
                     end) hs.

(** The wrappers destroyed by a sequence, in call order. *)
Definition hook_destroyed (hs : list HookCall) : list Ptr :=
  flat_map (fun h => match h with HookWrapperDestroy wrapper => [wrapper] | _ => [] end) hs.

Definition is_TrackRelease (c : TrackerCall) : bool :=
  match c with TrackRelease _ => true | _ => false end.

Definition is_release_call (c : TrackerCall) : bool := is_RemoveEntry c || is_TrackRelease c.

(** An [AddEntry] for an object that is not null; any other call. *)
Definition entry_object_nonnull (c : TrackerCall) : Prop :=
  match c with AddEntry _ handle _ _ _ => handle <> nullptr | _ => True end.

(** [m'] differs from [m] at most in the state tracker and the trace
    sink. *)
Definition unchanged_outside_tracker_and_sink (m m' : D3D12CaptureManager) : Prop :=
  capture_mode_ m' = capture_mode_ m /\
  thread_data_ m' = thread_data_ m /\
  frame_captures_ m' = frame_captures_ m /\
  screenshots_enabled_ m' = screenshots_enabled_ m /\
  content_captures_ m' = content_captures_ m /\
  mapped_resources_ m' = mapped_resources_ m /\
  dxgi_dispatch_table_ m' = dxgi_dispatch_table_ m /\
  d3d12_dispatch_table_ m' = d3d12_dispatch_table_ m /\
  debug_layer_enabled_ m' = debug_layer_enabled_ m /\
  debug_device_lost_enabled_ m' = debug_device_lost_enabled_ m /\
  track_enable_debug_layer_object_id_ m' = track_enable_debug_layer_object_id_ m /\
  track_enable_dred_info_ m' = track_enable_dred_info_ m.

(** The record that an end-of-call hook of thread [tid] emits. *)
Definition call_record_of (m : D3D12CaptureManager) (tid : ThreadId) : CallRecord :=
  {| record_thread := tid; record_data := GetThreadData tid m |}.

(** A sequence of hooks of thread 0: a successful creation of object 4096,
    a command, a failed creation, the destruction of a wrapper. *)
Definition sample_hooks : list HookCall :=
  [HookEndCreate 0%nat S_OK 99 (Some 4096) 77;
   HookEndCommandList nat nat 0%nat 500 5%nat 6%nat;
   HookEndCreate 0%nat E_FAIL 99 None 77;
   HookWrapperDestroy 4096].

(** ** Properties of the call scope *)

Section CallScopeFacts.

Lemma wrap_uint32_range z : is_uint32 (wrap_uint32 z).
Proof. unfold is_uint32, wrap_uint32, uint32_modulus. apply Z.mod_pos_bound. lia. Qed.

Lemma wrap_uint32_small z : is_uint32 z -> wrap_uint32 z = z.
Proof. unfold is_uint32, wrap_uint32. intros H. apply Z.mod_small. exact H. Qed.

Lemma wrap_succ_pred d : is_uint32 d -> wrap_uint32 (wrap_uint32 (d + 1) - 1) = d.
Proof.
  unfold is_uint32, wrap_uint32, uint32_modulus. intros H.
  rewrite Zminus_mod_idemp_l.
  replace (d + 1 - 1) with d by lia.
  apply Z.mod_small; lia.
Qed.

Lemma wrap_succ_is_one d : is_uint32 d -> wrap_uint32 (d + 1) = 1 <-> d = 0.
Proof.
  unfold is_uint32, wrap_uint32, uint32_modulus. intros H. split.
  - intros E. destruct (Z.eq_dec (d + 1) (2 ^ 32)) as [Hmax | Hmax].
    + rewrite Hmax, Z.mod_same in E by lia. lia.
    + rewrite Z.mod_small in E by lia. lia.
  - intros ->. reflexivity.
Qed.

Lemma increment_other tid tid' cs :
  tid' <> tid -> snd (IncrementCallScope tid cs) tid' = cs tid'.
Proof. intros Hne. simpl. apply fn_lookup_insert_ne. congruence. Qed.

Lemma decrement_other tid tid' cs :
  tid' <> tid -> snd (DecrementCallScope tid cs) tid' = cs tid'.
Proof. intros Hne. simpl. apply fn_lookup_insert_ne. congruence. Qed.

Lemma increment_returns_stored tid cs :
  fst (IncrementCallScope tid cs) = snd (IncrementCallScope tid cs) tid.
Proof. simpl. symmetry. apply fn_lookup_insert. Qed.

Lemma decrement_returns_stored tid cs :
  fst (DecrementCallScope tid cs) = snd (DecrementCallScope tid cs) tid.
Proof. simpl. symmetry. apply fn_lookup_insert. Qed.

Lemma increments_depth n tid cs :
  increments n tid cs tid = wrap_uint32 (cs tid + Z.of_nat n) \/ (n = O /\ increments n tid cs tid = cs tid).
Proof.
  induction n as [| k IH].
  - right. split; reflexivity.
  - left. cbn [increments]. rewrite <- increment_returns_stored. cbn [IncrementCallScope fst].
    destruct IH as [IH | [-> IH]]; rewrite IH.
    + unfold wrap_uint32. rewrite Zplus_mod_idemp_l. f_equal. lia.
    + f_equal.
Qed.

End CallScopeFacts.

Lemma increment_decrement_pointwise tid cs other :
  is_uint32 (cs tid) ->
  snd (DecrementCallScope tid (snd (IncrementCallScope tid cs))) other = cs other.
Proof.
  intros Hrange. destruct (decide (other = tid)) as [-> | Hne].
  - rewrite <- decrement_returns_stored. cbn [DecrementCallScope fst].
    rewrite <- increment_returns_stored. cbn [IncrementCallScope fst].
    apply wrap_succ_pred, Hrange.
  - rewrite decrement_other, increment_other by exact Hne. reflexivity.
Qed.

(** C3.  The call scope is a per-thread nesting depth.  On a thread whose
    depth [cs tid] is a [uint32_t] value: [IncrementCallScope] returns the
    incremented depth, which is also the depth it leaves stored;
    [DecrementCallScope] returns the decremented depth, likewise stored;
    an increment followed by a decrement on the same thread restores the
    depth that was there before (for every thread); neither operation
    changes the depth of any other thread; and the increment returns 1
    exactly when the thread was at depth 0, that is when the call is a
    top-level one. *)
Theorem call_scope_is_per_thread_nesting_depth (tid : ThreadId) (cs : CallScope) :
  is_uint32 (cs tid) ->
  let inc := IncrementCallScope tid cs in
  let dec := DecrementCallScope tid cs in
  let inc_dec := DecrementCallScope tid (snd inc) in
  (fst inc = wrap_uint32 (cs tid + 1) /\ snd inc tid = fst inc /\
   (cs tid < uint32_modulus - 1 -> fst inc = cs tid + 1)) /\
  (fst dec = wrap_uint32 (cs tid - 1) /\ snd dec tid = fst dec /\
   (0 < cs tid -> fst dec = cs tid - 1)) /\
  (fst inc_dec = cs tid /\ forall other, snd inc_dec other = cs other) /\
  (forall other, other <> tid ->
     snd inc other = cs other /\ snd dec other = cs other) /\
  (fst inc = 1 <-> cs tid = 0).
Proof.
  intros Hrange inc dec inc_dec. repeat split.
  - subst inc. symmetry. apply increment_returns_stored.
  - intros Hlt. subst inc. cbn [IncrementCallScope fst].
    apply wrap_uint32_small. unfold is_uint32 in *. lia.
  - subst dec. symmetry. apply decrement_returns_stored.
  - intros Hpos. subst dec. cbn [DecrementCallScope fst].
    apply wrap_uint32_small. unfold is_uint32 in *. lia.
  - subst inc_dec inc. rewrite decrement_returns_stored.
    apply increment_decrement_pointwise, Hrange.
  - intros other. subst inc_dec inc. apply increment_decrement_pointwise, Hrange.
  - subst inc. apply increment_other. assumption.
  - subst dec. apply decrement_other. assumption.
  - subst inc. cbn [IncrementCallScope fst]. apply wrap_succ_is_one, Hrange.
  - subst inc. cbn [IncrementCallScope fst]. apply wrap_succ_is_one, Hrange.
Qed.

Lemma call_scope_is_per_thread_nesting_depth_witness :
  let cs : CallScope := <[2%nat := 3]> initial_call_scope in
  is_uint32 (cs 2%nat) /\
  fst (IncrementCallScope 2%nat cs) = 4 /\
  fst (DecrementCallScope 2%nat (snd (IncrementCallScope 2%nat cs))) = 3 /\
  snd (IncrementCallScope 2%nat cs) 5%nat = 0.
Proof.
  intros cs.
  assert (Hrange : is_uint32 (cs 2%nat)) by (vm_compute; split; congruence).
  pose proof (call_scope_is_per_thread_nesting_depth 2%nat cs Hrange)
    as [[_ [_ Hinc]] [_ [[Hback _] [Hother _]]]].
  split; [exact Hrange |].
  split; [apply Hinc; vm_compute; reflexivity |].
  split; [exact Hback |].
  apply (Hother 5%nat). lia.
Defined.

(** C10.  [DecrementCallScope] has no floor at zero: on a thread at depth
    0 it returns, and stores, 4294967295.  From there the next increment
    returns 0, so a top-level call is not seen at depth 1; among up to
    2^32 unmatched increments the depth is 1 only after the second one,
    the one that makes up for the stray decrement. *)
Theorem decrement_at_depth_zero_wraps (tid : ThreadId) (cs : CallScope) :
  cs tid = 0 ->
  let dec := DecrementCallScope tid cs in
  fst dec = 4294967295 /\
  snd dec tid = 4294967295 /\
  fst (IncrementCallScope tid (snd dec)) = 0 /\
  (forall n : nat, Z.of_nat n <= uint32_modulus ->
     increments n tid (snd dec) tid = 1 <-> n = 2%nat).
Proof.
  intros Hzero dec.
  assert (Hret : fst dec = 4294967295).
  { subst dec. cbn [DecrementCallScope fst]. rewrite Hzero. reflexivity. }
  assert (Hst : snd dec tid = 4294967295).
  { subst dec. rewrite <- decrement_returns_stored. exact Hret. }
  split; [exact Hret |]. split; [exact Hst |]. split.
  - cbn [IncrementCallScope fst]. rewrite Hst. reflexivity.
  - intros n Hn.
    destruct (increments_depth n tid (snd dec)) as [E | [-> E]]; rewrite E, Hst.
    + unfold wrap_uint32, uint32_modulus in *.
      destruct n as [| k].
      * split; [vm_compute; congruence | lia].
      * replace (4294967295 + Z.of_nat (S k)) with (Z.of_nat k + 1 * 2 ^ 32) by lia.
        rewrite Z.mod_add by lia. rewrite Z.mod_small by lia. lia.
    + split; [congruence | lia].
Qed.

Lemma decrement_at_depth_zero_wraps_witness :
  fst (DecrementCallScope 0%nat initial_call_scope) = 4294967295 /\
  fst (IncrementCallScope 0%nat (snd (DecrementCallScope 0%nat initial_call_scope))) = 0.
Proof.
  pose proof (decrement_at_depth_zero_wraps 0%nat initial_call_scope eq_refl)
    as [Hret [_ [Hnext _]]].
  split; [exact Hret | exact Hnext].
Defined.

(** ** Properties of the end-of-call functions *)

Section TrackingFacts.

Variable kModeTrack : Z.

(** When [kModeTrack] is the single bit [k], the mask test of the header
    reads that bit of the capture mode. *)
Lemma tracking_tests_bit (k : Z) (m : D3D12CaptureManager) :
  0 <= k -> kModeTrack = 2 ^ k ->
  tracking kModeTrack m = Z.testbit (GetCaptureMode m) k.
Proof.
  intros Hk ->. unfold tracking.
  destruct (Z.testbit (GetCaptureMode m) k) eqn:Hbit.
  - apply Z.eqb_eq. apply Z.bits_inj'. intros n Hn.
    rewrite Z.land_spec, Z.pow2_bits_eqb by exact Hk.
    destruct (Z.eqb_spec k n) as [<- | _].
    + rewrite Hbit. reflexivity.
    + apply andb_false_r.
  - apply Z.eqb_neq. intros Heq.
    assert (Hk' : Z.testbit (Z.land (GetCaptureMode m) (2 ^ k)) k = true).
    { rewrite Heq. apply Z.pow2_bits_true. exact Hk. }
    rewrite Z.land_spec, Hbit in Hk'. discriminate.
Qed.

Lemma count_calls_app p l1 l2 :
  count_calls p (l1 ++ l2) = (count_calls p l1 + count_calls p l2)%nat.
Proof. unfold count_calls. rewrite List.filter_app, length_app. reflexivity. Qed.

Lemma tracker_log_call c tracker m :
  tracker_log (with_state_tracker (Some (call_tracker c tracker)) m)
  = received_calls tracker ++ [c].
Proof. reflexivity. Qed.

Lemma end_create_registering tid result riid handle wrapper m object :
  tracking kModeTrack m = true -> created_object result handle object ->
  EndCreateMethodCallCapture kModeTrack tid result riid handle wrapper m
  = tracker ← state_tracker_ m;
    thread_data ← GetThreadData tid m;
    Some (EndMethodCallCapture tid
            (with_state_tracker
               (Some (call_tracker
                        (AddEntry riid object (call_id_ thread_data) wrapper
                           (parameter_buffer_ thread_data)) tracker)) m)).
Proof.
  intros Htrack (Hres & -> & Hobj). unfold EndCreateMethodCallCapture, assert_not_null.
  rewrite Htrack. unfold SUCCEEDED.
  destruct (Z.leb_spec 0 result) as [_ | Hneg]; [| lia]. cbn [andb].
  destruct (Z.eqb_spec object nullptr) as [Heq | _]; [contradiction |]. cbn [negb].
  destruct (state_tracker_ m) as [tracker |]; [| reflexivity].
  destruct (GetThreadData tid m) as [thread_data |]; reflexivity.
Qed.

Lemma end_create_not_registering tid result riid handle wrapper m :
  ~ (tracking kModeTrack m = true /\ exists object, created_object result handle object) ->
  EndCreateMethodCallCapture kModeTrack tid result riid handle wrapper m
  = Some (EndMethodCallCapture tid m).
Proof.
  intros Hno. unfold EndCreateMethodCallCapture.
  destruct (tracking kModeTrack m) eqn:Htrack; [| reflexivity].
  unfold SUCCEEDED. destruct (Z.leb_spec 0 result) as [Hres | _]; [| reflexivity].
  cbn [andb]. destruct handle as [object |]; [| reflexivity].
  destruct (Z.eqb_spec object nullptr) as [_ | Hobj]; [reflexivity |].
  exfalso. apply Hno. split; [reflexivity |]. exists object. repeat split; assumption.
Qed.

Lemma end_command_list_tracking {F A : Type} tid list_wrapper (func : F) (args : A) m :
  tracking kModeTrack m = true ->
  EndCommandListMethodCallCapture kModeTrack tid list_wrapper func args m
  = tracker ← state_tracker_ m;
    thread_data ← GetThreadData tid m;
    Some (EndMethodCallCapture tid
            (with_state_tracker
               (Some (call_tracker
                        (TrackCommand F A list_wrapper (call_id_ thread_data)
                           (parameter_buffer_ thread_data) func args) tracker)) m)).
Proof.
  intros Htrack. unfold EndCommandListMethodCallCapture, assert_not_null. rewrite Htrack.
  destruct (state_tracker_ m) as [tracker |]; [| reflexivity].
  destruct (GetThreadData tid m) as [thread_data |]; reflexivity.
Qed.

Lemma end_command_list_not_tracking {F A : Type} tid list_wrapper (func : F) (args : A) m :
  tracking kModeTrack m = false ->
  EndCommandListMethodCallCapture kModeTrack tid list_wrapper func args m
  = Some (EndMethodCallCapture tid m).
Proof. intros Htrack. unfold EndCommandListMethodCallCapture. rewrite Htrack. reflexivity. Qed.

Lemma wrapper_destroy_tracking wrapper m tracker :
  tracking kModeTrack m = true -> state_tracker_ m = Some tracker ->
  ProcessWrapperDestroy kModeTrack wrapper m
  = Some (with_state_tracker
            (Some {| received_calls :=
                       received_calls tracker ++ [RemoveEntry wrapper; TrackRelease wrapper] |}) m).
Proof.
  intros Htrack Hsome. unfold ProcessWrapperDestroy. rewrite Htrack, Hsome.
  cbn. unfold call_tracker. cbn. rewrite <- app_assoc. reflexivity.
Qed.

Lemma wrapper_destroy_not_tracking wrapper m :
  tracking kModeTrack m = false -> ProcessWrapperDestroy kModeTrack wrapper m = Some m.
Proof. intros Htrack. unfold ProcessWrapperDestroy. rewrite Htrack. reflexivity. Qed.

(** A wrapper's destruction touches nothing but the state tracker. *)
Lemma wrapper_destroy_frame wrapper m m' :
  ProcessWrapperDestroy kModeTrack wrapper m = Some m' ->
  GetCaptureMode m' = GetCaptureMode m /\
  (forall tid, GetThreadData tid m' = GetThreadData tid m) /\
  GetEnableDebugLayerObjectId m' = GetEnableDebugLayerObjectId m /\
  GetEnableDREDInfo m' = GetEnableDREDInfo m /\
  trace_sink_ m' = trace_sink_ m /\
  mapped_resources_ m' = mapped_resources_ m.
Proof.
  unfold ProcessWrapperDestroy. destruct (tracking kModeTrack m).
  - destruct (state_tracker_ m) as [tracker |]; [| discriminate].
    cbn. intros [= <-]. repeat split.
  - intros [= <-]. repeat split.
Qed.

End TrackingFacts.

Lemma registers_entry_dec k m result handle :
  { registers_entry k m result handle } + { ~ registers_entry k m result handle }.
Proof.
  unfold registers_entry.
  destruct (Z.testbit (GetCaptureMode m) k); [| right; intros [H _]; discriminate].
  destruct (Z_le_dec 0 result) as [Hres | Hres]; [| right; intros (_ & H & _); contradiction].
  destruct handle as [object |].
  - destruct (Z.eq_dec object nullptr) as [Heq | Hne].
    + right. intros (_ & _ & o & [= <-] & Ho). contradiction.
    + left. repeat split; [assumption |]. exists object. split; [reflexivity | assumption].
  - right. intros (_ & _ & o & Ho & _). discriminate.
Qed.

Lemma end_create_cases (kModeTrack k : Z) tid result riid handle wrapper m :
  0 <= k -> kModeTrack = 2 ^ k -> tracking_ready kModeTrack tid m ->
  (registers_entry k m result handle /\
   exists object tracker thread_data,
     handle = Some object /\ state_tracker_ m = Some tracker /\
     GetThreadData tid m = Some thread_data /\
     EndCreateMethodCallCapture kModeTrack tid result riid handle wrapper m
     = Some (EndMethodCallCapture tid
               (with_state_tracker
                  (Some (call_tracker
                           (AddEntry riid object (call_id_ thread_data) wrapper
                              (parameter_buffer_ thread_data)) tracker)) m)))
  \/
  (~ registers_entry k m result handle /\
   EndCreateMethodCallCapture kModeTrack tid result riid handle wrapper m
   = Some (EndMethodCallCapture tid m)).
Proof.
  intros Hk Hmask Hready.
  pose proof (tracking_tests_bit kModeTrack k m Hk Hmask) as Hbit.
  destruct (registers_entry_dec k m result handle) as [Hyes | Hno].
  - left. split; [exact Hyes |].
    destruct Hyes as (Hset & Hres & object & Hhandle & Hobj).
    rewrite <- Hbit in Hset.
    destruct (Hready Hset) as [[tracker Htracker] [thread_data Hdata]].
    exists object, tracker, thread_data. repeat split; try assumption.
    rewrite (end_create_registering kModeTrack tid result riid handle wrapper m object Hset)
      by (repeat split; assumption).
    rewrite Htracker, Hdata. reflexivity.
  - right. split; [exact Hno |].
    apply end_create_not_registering. intros [Htrack (object & Hres & Hhandle & Hobj)].
    apply Hno. rewrite Hbit in Htrack. repeat split; try assumption.
    exists object. split; assumption.
Qed.

(** In every mode a creation call completes; with the tracking bit clear
    it leaves the state tracker alone. *)
Lemma end_create_completes
    (kModeTrack k : Z) tid result riid handle wrapper m :
  0 <= k -> kModeTrack = 2 ^ k -> tracking_ready kModeTrack tid m ->
  exists m',
    EndCreateMethodCallCapture kModeTrack tid result riid handle wrapper m = Some m' /\
    (Z.testbit (GetCaptureMode m) k = false -> state_tracker_ m' = state_tracker_ m).
Proof.
  intros Hk Hmask Hready.
  destruct (end_create_cases kModeTrack k tid result riid handle wrapper m Hk Hmask Hready)
    as [(Hyes & object & tracker & thread_data & _ & _ & _ & Hrun) | (Hno & Hrun)];
    rewrite Hrun; eexists; (split; [reflexivity |]).
  - intros Hoff. destruct Hyes as [Hon _]. congruence.
  - intros _. reflexivity.
Qed.

(** C1.  With [kModeTrack] the mode bit [k], and the state tracker and
    thread data in place whenever tracking is on, a creation method call
    always completes, and [EndCreateMethodCallCapture] hands the tracker
    one [AddEntry], carrying the interface id, the created object, the
    calling thread's call id, the parent wrapper and the thread's staged
    parameter bytes, if and only if the tracking bit is set, the result
    succeeded, the output pointer is not null and the object it refers to
    is not null.  The tracker receives nothing otherwise, so its number of
    [AddEntry] calls goes up by exactly one for such a creation and stays
    the same for any other. *)
Theorem end_create_registers_iff_tracked_success
    (kModeTrack k : Z) (tid : ThreadId) (result : HRESULT) (riid : IID)
    (handle : OutPtr) (create_object_wrapper : Ptr) (m : D3D12CaptureManager) :
  0 <= k -> kModeTrack = 2 ^ k -> tracking_ready kModeTrack tid m ->
  exists m',
    EndCreateMethodCallCapture kModeTrack tid result riid handle create_object_wrapper m
      = Some m' /\
    (registers_entry k m result handle ->
       exists object tracker thread_data,
         handle = Some object /\ state_tracker_ m = Some tracker /\
         GetThreadData tid m = Some thread_data /\
         state_tracker_ m' =
           Some {| received_calls :=
                     received_calls tracker ++
                     [AddEntry riid object (call_id_ thread_data) create_object_wrapper
                        (parameter_buffer_ thread_data)] |}) /\
    (~ registers_entry k m result handle -> state_tracker_ m' = state_tracker_ m) /\
    (count_calls is_AddEntry (tracker_log m')
       = S (count_calls is_AddEntry (tracker_log m)) <-> registers_entry k m result handle) /\
    (count_calls is_AddEntry (tracker_log m')
       = count_calls is_AddEntry (tracker_log m) <-> ~ registers_entry k m result handle).
Proof.
  intros Hk Hmask Hready.
  destruct (end_create_cases kModeTrack k tid result riid handle create_object_wrapper m
              Hk Hmask Hready)
    as [(Hyes & object & tracker & thread_data & Hhandle & Htracker & Hdata & Hrun)
       | (Hno & Hrun)];
    rewrite Hrun; eexists; (split; [reflexivity |]).
  - assert (Hcount :
      count_calls is_AddEntry
        (tracker_log (EndMethodCallCapture tid
           (with_state_tracker
              (Some (call_tracker
                       (AddEntry riid object (call_id_ thread_data) create_object_wrapper
                          (parameter_buffer_ thread_data)) tracker)) m)))
      = S (count_calls is_AddEntry (tracker_log m))).
    { unfold tracker_log at 2. rewrite Htracker.
      change (tracker_log (EndMethodCallCapture tid _))
        with (received_calls tracker ++
              [AddEntry riid object (call_id_ thread_data) create_object_wrapper
                 (parameter_buffer_ thread_data)]).
      rewrite count_calls_app. cbn. lia. }
    split; [| split; [| split]].
    + intros _. exists object, tracker, thread_data. repeat split; assumption.
    + intros Hcontra. contradiction.
    + split; [intros _; exact Hyes | intros _; exact Hcount].
    + rewrite Hcount. split; [lia | intros Hcontra; contradiction].
  - split; [| split; [| split]].
    + intros Hcontra. contradiction.
    + intros _. reflexivity.
    + change (tracker_log (EndMethodCallCapture tid m)) with (tracker_log m).
      split; [lia | intros Hcontra; contradiction].
    + split; [intros _; exact Hno | reflexivity].
Qed.

Lemma sample_tracking_manager_ready : tracking_ready 2 0%nat sample_tracking_manager.
Proof. intros _. split; eexists; reflexivity. Qed.

Lemma end_create_registers_iff_tracked_success_witness :
  exists m',
    EndCreateMethodCallCapture 2 0%nat S_OK 99 (Some 4096) 77 sample_tracking_manager
      = Some m' /\
    count_calls is_AddEntry (tracker_log m') = 1%nat.
Proof.
  destruct (end_create_registers_iff_tracked_success 2 1 0%nat S_OK 99 (Some 4096) 77
              sample_tracking_manager ltac:(lia) eq_refl sample_tracking_manager_ready)
    as (m' & Hrun & _ & _ & [_ Hcount] & _).
  exists m'. split; [exact Hrun |].
  apply Hcount. split; [reflexivity |]. split; [unfold S_OK; lia |].
  exists 4096. split; [reflexivity | discriminate].
Defined.

(** Whenever an end-of-call function completes, it has emitted the call
    record, whatever the mode, the result and the tracker. *)
Lemma end_create_emits kModeTrack tid result riid handle wrapper m m' :
  EndCreateMethodCallCapture kModeTrack tid result riid handle wrapper m = Some m' ->
  trace_sink_ m' =
    trace_sink_ m ++ [{| record_thread := tid; record_data := GetThreadData tid m |}].
Proof.
  unfold EndCreateMethodCallCapture, assert_not_null.
  destruct (tracking kModeTrack m && SUCCEEDED result).
  - destruct handle as [object |].
    + destruct (negb (object =? nullptr)).
      * destruct (state_tracker_ m) as [tracker |]; [| discriminate].
        destruct (GetThreadData tid m) as [thread_data |] eqn:Hdata; [| discriminate].
        cbn. intros [= <-]. cbn. unfold GetThreadData in *. cbn. rewrite Hdata. reflexivity.
      * cbn. intros [= <-]. reflexivity.
    + cbn. intros [= <-]. reflexivity.
  - cbn. intros [= <-]. reflexivity.
Qed.

Lemma end_command_list_emits {F A : Type} kModeTrack tid list_wrapper (func : F) (args : A) m m' :
  EndCommandListMethodCallCapture kModeTrack tid list_wrapper func args m = Some m' ->
  trace_sink_ m' =
    trace_sink_ m ++ [{| record_thread := tid; record_data := GetThreadData tid m |}].
Proof.
  unfold EndCommandListMethodCallCapture, assert_not_null.
  destruct (tracking kModeTrack m).
  - destruct (state_tracker_ m) as [tracker |]; [| discriminate].
    destruct (GetThreadData tid m) as [thread_data |] eqn:Hdata; [| discriminate].
    cbn. intros [= <-]. cbn. unfold GetThreadData in *. cbn. rewrite Hdata. reflexivity.
  - cbn. intros [= <-]. reflexivity.
Qed.

(** C2.  With [kModeTrack] the mode bit [k], and the state tracker and
    thread data in place whenever tracking is on: for every result code,
    handle and capture mode, [EndCreateMethodCallCapture] completes and
    has appended the calling thread's call record to the trace sink, and
    so does [EndCommandListMethodCallCapture] for every command; the state
    tracker is left as it was whenever the tracking bit is clear, and with
    the bit set a command-list call hands it one [TrackCommand]. *)
Theorem call_record_emitted_in_every_mode
    (kModeTrack k : Z) (tid : ThreadId) (m : D3D12CaptureManager) :
  0 <= k -> kModeTrack = 2 ^ k -> tracking_ready kModeTrack tid m ->
  let record := {| record_thread := tid; record_data := GetThreadData tid m |} in
  (forall (result : HRESULT) (riid : IID) (handle : OutPtr) (create_object_wrapper : Ptr),
     exists m',
       EndCreateMethodCallCapture kModeTrack tid result riid handle create_object_wrapper m
         = Some m' /\
       trace_sink_ m' = trace_sink_ m ++ [record] /\
       (Z.testbit (GetCaptureMode m) k = false -> state_tracker_ m' = state_tracker_ m)) /\
  (forall (GetHandlesFunc GetHandlesArgs : Type) (list_wrapper : Ptr)
          (func : GetHandlesFunc) (args : GetHandlesArgs),
     exists m',
       EndCommandListMethodCallCapture kModeTrack tid list_wrapper func args m = Some m' /\
       trace_sink_ m' = trace_sink_ m ++ [record] /\
       (Z.testbit (GetCaptureMode m) k = false -> state_tracker_ m' = state_tracker_ m) /\
       (Z.testbit (GetCaptureMode m) k = true ->
          exists tracker thread_data,
            state_tracker_ m = Some tracker /\ GetThreadData tid m = Some thread_data /\
            state_tracker_ m' =
              Some {| received_calls :=
                        received_calls tracker ++
                        [TrackCommand GetHandlesFunc GetHandlesArgs list_wrapper
                           (call_id_ thread_data) (parameter_buffer_ thread_data)
                           func args] |})).
Proof.
  intros Hk Hmask Hready record.
  pose proof (tracking_tests_bit kModeTrack k m Hk Hmask) as Hbit.
  split.
  - intros result riid handle wrapper.
    destruct (end_create_completes kModeTrack k tid result riid
                handle wrapper m Hk Hmask Hready) as (m' & Hrun & Hclear).
    exists m'. split; [exact Hrun |]. split; [exact (end_create_emits _ _ _ _ _ _ _ _ Hrun) |].
    exact Hclear.
  - intros F A list_wrapper func args.
    destruct (tracking kModeTrack m) eqn:Htrack.
    + destruct (Hready Htrack) as [[tracker Htracker] [thread_data Hdata]].
      pose proof (end_command_list_tracking kModeTrack tid list_wrapper func args m Htrack)
        as Hrun.
      rewrite Htracker, Hdata in Hrun. cbn in Hrun.
      eexists. split; [exact Hrun |].
      split; [exact (end_command_list_emits _ _ _ _ _ _ _ Hrun) |].
      split; [intros Hoff; congruence |].
      intros _. exists tracker, thread_data. repeat split; assumption.
    + pose proof (end_command_list_not_tracking kModeTrack tid list_wrapper func args m Htrack)
        as Hrun.
      exists (EndMethodCallCapture tid m). split; [exact Hrun |].
      split; [reflexivity |]. split; [reflexivity | intros Hon; congruence].
Qed.

Lemma sample_recording_manager_ready tid : tracking_ready 2 tid sample_recording_manager.
Proof. intros Htrack. vm_compute in Htrack. discriminate Htrack. Qed.

Lemma call_record_emitted_in_every_mode_witness :
  exists m',
    EndCreateMethodCallCapture 2 0%nat E_FAIL 99 None 77 sample_recording_manager = Some m' /\
    length (trace_sink_ m') = 1%nat /\ state_tracker_ m' = None.
Proof.
  destruct (call_record_emitted_in_every_mode 2 1 0%nat sample_recording_manager
              ltac:(lia) eq_refl (sample_recording_manager_ready 0%nat))
    as [Hcreate _].
  destruct (Hcreate E_FAIL 99 None 77) as (m' & Hrun & Hsink & Hclear).
  exists m'. split; [exact Hrun |]. split.
  - rewrite Hsink. reflexivity.
  - rewrite Hclear; reflexivity.
Defined.

(** C9.  With [kModeTrack] the mode bit [k]: when the bit is set,
    destroying a wrapper hands the state tracker [RemoveEntry] and then
    [TrackRelease] for that wrapper, in this order and nothing else; when
    the bit is clear, [ProcessWrapperDestroy] leaves the whole manager as
    it was, so neither call is made. *)
Theorem wrapper_destroy_registry_bookkeeping
    (kModeTrack k : Z) (wrapper : Ptr) (m : D3D12CaptureManager) :
  0 <= k -> kModeTrack = 2 ^ k ->
  (Z.testbit (GetCaptureMode m) k = true ->
     forall tracker, state_tracker_ m = Some tracker ->
       exists m',
         ProcessWrapperDestroy kModeTrack wrapper m = Some m' /\
         tracker_log m' = tracker_log m ++ [RemoveEntry wrapper; TrackRelease wrapper]) /\
  (Z.testbit (GetCaptureMode m) k = false ->
     ProcessWrapperDestroy kModeTrack wrapper m = Some m).
Proof.
  intros Hk Hmask.
  pose proof (tracking_tests_bit kModeTrack k m Hk Hmask) as Hbit.
  split.
  - intros Hon tracker Htracker. rewrite <- Hbit in Hon.
    rewrite (wrapper_destroy_tracking kModeTrack wrapper m tracker Hon Htracker).
    eexists. split; [reflexivity |].
    unfold tracker_log at 2. rewrite Htracker. reflexivity.
  - intros Hoff. rewrite <- Hbit in Hoff.
    apply wrapper_destroy_not_tracking. exact Hoff.
Qed.

Lemma wrapper_destroy_registry_bookkeeping_witness :
  (exists m',
     ProcessWrapperDestroy 2 4096 sample_tracking_manager = Some m' /\
     tracker_log m' = [RemoveEntry 4096; TrackRelease 4096]) /\
  ProcessWrapperDestroy 2 4096 sample_recording_manager = Some sample_recording_manager.
Proof.
  split.
  - destruct (wrapper_destroy_registry_bookkeeping 2 1 4096 sample_tracking_manager
                ltac:(lia) eq_refl) as [Hon _].
    destruct (Hon eq_refl _ eq_refl) as (m' & Hrun & Hlog).
    exists m'. split; [exact Hrun | exact Hlog].
  - destruct (wrapper_destroy_registry_bookkeeping 2 1 4096 sample_recording_manager
                ltac:(lia) eq_refl) as [_ Hoff].
    apply Hoff. reflexivity.
Defined.

(** ** Properties of presentation *)

Lemma post_present_not_top_level tid (cs : CallScope) wrapper m :
  cs tid <> 1 -> PostPresent tid cs wrapper m = m.
Proof.
  intros Hdepth. unfold PostPresent.
  destruct (Z.eqb_spec (cs tid) 1) as [Heq | _]; [contradiction | reflexivity].
Qed.

Lemma post_process_present_not_top_level tid (cs : CallScope) wrapper result sync_interval flags m :
  cs tid <> 1 ->
  PostProcess_IDXGISwapChain_Present tid cs wrapper result sync_interval flags m = m.
Proof.
  intros Hdepth. unfold PostProcess_IDXGISwapChain_Present.
  destruct (SUCCEEDED result); [apply post_present_not_top_level, Hdepth | reflexivity].
Qed.

(** At depth 1, a successful present with frame capture configured hands
    the swapchain to the image renderer once. *)
Lemma post_process_present_top_level tid (cs : CallScope) wrapper result sync_interval flags m :
  cs tid = 1 -> 0 <= result -> screenshots_enabled_ m = true ->
  frame_captures_ (PostProcess_IDXGISwapChain_Present tid cs wrapper result sync_interval flags m)
  = frame_captures_ m ++ [wrapper].
Proof.
  intros Hdepth Hres Hon. unfold PostProcess_IDXGISwapChain_Present, PostPresent, SUCCEEDED.
  destruct (Z.leb_spec 0 result) as [_ | Hneg]; [| lia].
  rewrite Hdepth, Hon. reflexivity.
Qed.

(** C4.  A present issued while the thread is already inside an
    intercepted call runs at call-scope depth greater than 1.  It returns
    the native result unchanged, its call record is appended to the trace
    sink, no frame capture is triggered, whatever the result and the
    configuration, and the thread's depth is back to what it was; the
    post-process hook on its own triggers no frame capture at such a
    depth either. *)
Theorem nested_present_recorded_without_frame_capture
    (tid : ThreadId) (native_result : HRESULT) (wrapper : Ptr) (sync_interval flags : Z)
    (call_scope_ : CallScope) (m : D3D12CaptureManager) :
  is_uint32 (call_scope_ tid) ->
  1 < fst (IncrementCallScope tid call_scope_) ->
  let out := IDXGISwapChain_Present tid native_result wrapper sync_interval flags
               (call_scope_, m) in
  fst out = native_result /\
  trace_sink_ (snd (snd out)) =
    trace_sink_ m ++ [{| record_thread := tid; record_data := GetThreadData tid m |}] /\
  frame_captures_ (snd (snd out)) = frame_captures_ m /\
  fst (snd out) tid = call_scope_ tid /\
  (forall scope : CallScope, 1 < scope tid ->
     frame_captures_
       (PostProcess_IDXGISwapChain_Present tid scope wrapper native_result
          sync_interval flags m)
     = frame_captures_ m).
Proof.
  intros Hrange Hnested out.
  assert (Hdepth : snd (IncrementCallScope tid call_scope_) tid <> 1).
  { rewrite <- increment_returns_stored. lia. }
  subst out. unfold IDXGISwapChain_Present.
  destruct (IncrementCallScope tid call_scope_) as [depth scope_in] eqn:Hinc.
  destruct (DecrementCallScope tid scope_in) as [depth' scope_out] eqn:Hdec.
  cbn [fst snd] in *.
  rewrite (post_process_present_not_top_level tid scope_in wrapper native_result
             sync_interval flags m Hdepth).
  split; [reflexivity |]. split; [reflexivity |]. split; [reflexivity |]. split.
  - pose proof (increment_decrement_pointwise tid call_scope_ tid Hrange) as Hback.
    rewrite Hinc in Hback. cbn [snd] in Hback. rewrite Hdec in Hback. exact Hback.
  - intros scope Hscope.
    rewrite post_process_present_not_top_level by lia. reflexivity.
Qed.

Lemma nested_present_recorded_without_frame_capture_witness :
  let scope : CallScope := <[0%nat := 1]> initial_call_scope in
  let out := IDXGISwapChain_Present 0%nat S_OK 4096 1 0 (scope, sample_tracking_manager) in
  fst out = S_OK /\
  length (trace_sink_ (snd (snd out))) = 1%nat /\
  frame_captures_ (snd (snd out)) = [].
Proof.
  intros scope out.
  assert (Hrange : is_uint32 (scope 0%nat)) by (vm_compute; split; congruence).
  assert (Hnested : 1 < fst (IncrementCallScope 0%nat scope)) by (vm_compute; reflexivity).
  destruct (nested_present_recorded_without_frame_capture 0%nat S_OK 4096 1 0 scope
              sample_tracking_manager Hrange Hnested)
    as (Hres & Hsink & Hframes & _).
  split; [exact Hres |]. split.
  - subst out. rewrite Hsink. reflexivity.
  - exact Hframes.
Defined.

(** ** Properties of mapping *)

Lemma length_filter_eq_NoDup (r : Z) (l : list Z) :
  NoDup l ->
  length (filter (fun x => x = r) l) = if decide (r ∈ l) then 1%nat else 0%nat.
Proof.
  induction 1 as [| x l Hnotin Hnodup IH].
  - reflexivity.
  - rewrite filter_cons. destruct (decide (x = r)) as [-> | Hne].
    + cbn [length]. rewrite IH.
      destruct (decide (r ∈ l)) as [Hin | _]; [contradiction |].
      destruct (decide (r ∈ r :: l)) as [_ | Hout]; [reflexivity |].
      exfalso. apply Hout. left.
    + rewrite IH.
      destruct (decide (r ∈ l)) as [Hin | Hout];
        destruct (decide (r ∈ x :: l)) as [Hin' | Hout']; try reflexivity.
      * exfalso. apply Hout'. right. exact Hin.
      * exfalso. apply elem_of_cons in Hin' as [-> | Hin']; contradiction.
Qed.

Lemma mapped_count_elem_of (r : Ptr) (m : D3D12CaptureManager) :
  mapped_count r m = if decide (r ∈ mapped_resources_ m) then 1%nat else 0%nat.
Proof.
  unfold mapped_count. rewrite length_filter_eq_NoDup by apply NoDup_elements.
  repeat case_decide; try reflexivity; exfalso;
    match goal with
    | Hin : _ ∈ _, Hout : _ ∉ _ |- _ => apply Hout; apply elem_of_elements in Hin || apply elem_of_elements; exact Hin
    end.
Qed.

Lemma map_success_mapped r result subresource data mapped m :
  0 <= result -> data = Some mapped -> mapped <> nullptr ->
  mapped_resources_ (PostProcess_ID3D12Resource_Map r result subresource data m)
  = {[ r ]} ∪ mapped_resources_ m.
Proof.
  intros Hres -> Hptr. unfold PostProcess_ID3D12Resource_Map, SUCCEEDED.
  destruct (Z.leb_spec 0 result) as [_ | Hneg]; [| lia].
  destruct (Z.eqb_spec mapped nullptr) as [Heq | _]; [contradiction | reflexivity].
Qed.

Lemma unmap_mapped r has_write_watch subresource m :
  mapped_resources_ (PreProcess_ID3D12Resource_Unmap r has_write_watch subresource m)
  = mapped_resources_ m ∖ {[ r ]}.
Proof.
  unfold PreProcess_ID3D12Resource_Unmap.
  destruct (negb has_write_watch); reflexivity.
Qed.

(** C5.  A successful map of [r] (success result, non-null pointer
    returned) puts [r] in the set of mapped resources and the following
    unmap takes it out.  Along map, unmap, map, whatever the set held
    before, [r] occurs in the set exactly once after each map and not at
    all after the unmap, and the membership of every other resource is
    left as it was. *)
Theorem map_unmap_map_keeps_single_entry
    (r : Ptr) (result result' : HRESULT) (subresource : Z) (data data' : OutPtr)
    (mapped mapped' : Ptr) (has_write_watch : bool) (m : D3D12CaptureManager) :
  0 <= result -> data = Some mapped -> mapped <> nullptr ->
  0 <= result' -> data' = Some mapped' -> mapped' <> nullptr ->
  let m1 := PostProcess_ID3D12Resource_Map r result subresource data m in
  let m2 := PreProcess_ID3D12Resource_Unmap r has_write_watch subresource m1 in
  let m3 := PostProcess_ID3D12Resource_Map r result' subresource data' m2 in
  (r ∈ mapped_resources_ m1 /\ mapped_count r m1 = 1%nat) /\
  ((r ∉ mapped_resources_ m2) /\ mapped_count r m2 = 0%nat) /\
  (r ∈ mapped_resources_ m3 /\ mapped_count r m3 = 1%nat) /\
  (forall other, other <> r ->
     (other ∈ mapped_resources_ m1 <-> other ∈ mapped_resources_ m) /\
     (other ∈ mapped_resources_ m2 <-> other ∈ mapped_resources_ m) /\
     (other ∈ mapped_resources_ m3 <-> other ∈ mapped_resources_ m)).
Proof.
  intros Hres Hdata Hptr Hres' Hdata' Hptr' m1 m2 m3.
  assert (Hset1 : mapped_resources_ m1 = {[ r ]} ∪ mapped_resources_ m).
  { subst m1. exact (map_success_mapped r result subresource data mapped m Hres Hdata Hptr). }
  assert (Hset2 : mapped_resources_ m2 = mapped_resources_ m1 ∖ {[ r ]}).
  { subst m2. apply unmap_mapped. }
  assert (Hset3 : mapped_resources_ m3 = {[ r ]} ∪ mapped_resources_ m2).
  { subst m3. exact (map_success_mapped r result' subresource data' mapped' m2 Hres' Hdata' Hptr'). }
  clearbody m1 m2 m3.
  rewrite !mapped_count_elem_of, Hset3, Hset2, Hset1.
  generalize (mapped_resources_ m). clear. intros s.
  assert (Hin : r ∈ {[ r ]} ∪ s) by (apply elem_of_union_l, elem_of_singleton; reflexivity).
  assert (Hout : r ∉ ({[ r ]} ∪ s) ∖ {[ r ]}).
  { rewrite elem_of_difference, elem_of_singleton. intros [_ Hne]. apply Hne. reflexivity. }
  assert (Hin' : r ∈ {[ r ]} ∪ ({[ r ]} ∪ s) ∖ {[ r ]})
    by (apply elem_of_union_l, elem_of_singleton; reflexivity).
  split; [split; [exact Hin | case_decide; [reflexivity | contradiction]] |].
  split; [split; [exact Hout | case_decide; [contradiction | reflexivity]] |].
  split; [split; [exact Hin' | case_decide; [reflexivity | contradiction]] |].
  intros other Hne.
  rewrite !elem_of_union, !elem_of_difference, !elem_of_union, !elem_of_singleton.
  tauto.
Qed.

Lemma map_unmap_map_keeps_single_entry_witness :
  let m1 := PostProcess_ID3D12Resource_Map 4096 S_OK 0 (Some 8192) sample_recording_manager in
  let m2 := PreProcess_ID3D12Resource_Unmap 4096 false 0 m1 in
  let m3 := PostProcess_ID3D12Resource_Map 4096 S_OK 0 (Some 8192) m2 in
  mapped_count 4096 m1 = 1%nat /\ mapped_count 4096 m2 = 0%nat /\ mapped_count 4096 m3 = 1%nat.
Proof.
  intros m1 m2 m3.
  assert (Hres : 0 <= S_OK) by (unfold S_OK; lia).
  assert (Hptr : 8192 <> nullptr) by (unfold nullptr; lia).
  destruct (map_unmap_map_keeps_single_entry 4096 S_OK S_OK 0 (Some 8192) (Some 8192)
              8192 8192 false sample_recording_manager
              Hres eq_refl Hptr Hres eq_refl Hptr)
    as ([_ Hc1] & [_ Hc2] & [_ Hc3] & _).
  split; [exact Hc1 |]. split; [exact Hc2 | exact Hc3].
Defined.

(** ** Properties of the swapchain buffers *)

Section SwapChainFacts.

Variable kModeTrack : Z.

Lemma count_release_calls buffers :
  count_calls is_RemoveEntry (release_calls buffers) = length buffers /\
  count_calls is_AddEntry (release_calls buffers) = 0%nat.
Proof.
  induction buffers as [| buffer rest [IHr IHa]]; [split; reflexivity |].
  change (release_calls (buffer :: rest))
    with ([RemoveEntry buffer; TrackRelease buffer] ++ release_calls rest).
  rewrite !count_calls_app, IHr, IHa. split; reflexivity.
Qed.

Lemma count_register_calls wrapper thread_data buffers :
  count_calls is_AddEntry (register_calls wrapper thread_data buffers) = length buffers /\
  count_calls is_RemoveEntry (register_calls wrapper thread_data buffers) = 0%nat.
Proof.
  induction buffers as [| buffer rest [IHa IHr]]; [split; reflexivity |].
  change (register_calls wrapper thread_data (buffer :: rest))
    with ([AddEntry IID_ID3D12Resource buffer (call_id_ thread_data) wrapper
             (parameter_buffer_ thread_data)]
          ++ register_calls wrapper thread_data rest).
  rewrite !count_calls_app, IHa, IHr. split; reflexivity.
Qed.

Lemma with_state_tracker_same m tracker :
  state_tracker_ m = Some tracker -> with_state_tracker (Some tracker) m = m.
Proof. destruct m. cbn. intros ->. reflexivity. Qed.

Lemma deregister_buffers_tracking buffers m log :
  tracking kModeTrack m = true ->
  state_tracker_ m = Some {| received_calls := log |} ->
  deregister_buffers kModeTrack buffers m
  = Some (with_state_tracker
            (Some {| received_calls := log ++ release_calls buffers |}) m).
Proof.
  revert m log. induction buffers as [| buffer rest IH]; intros m log Htrack Htracker.
  - cbn. rewrite app_nil_r. rewrite with_state_tracker_same by exact Htracker. reflexivity.
  - cbn [deregister_buffers].
    rewrite (wrapper_destroy_tracking kModeTrack buffer m _ Htrack Htracker). cbn [mbind option_bind].
    rewrite (IH _ (log ++ [RemoveEntry buffer; TrackRelease buffer])) by first [exact Htrack | reflexivity].
    cbn. rewrite <- app_assoc. reflexivity.
Qed.

Lemma deregister_buffers_not_tracking buffers m :
  tracking kModeTrack m = false -> deregister_buffers kModeTrack buffers m = Some m.
Proof.
  intros Htrack. induction buffers as [| buffer rest IH]; [reflexivity |].
  cbn [deregister_buffers]. rewrite wrapper_destroy_not_tracking by exact Htrack.
  exact IH.
Qed.

Lemma register_buffers_tracking tid wrapper buffers m log thread_data :
  tracking kModeTrack m = true ->
  state_tracker_ m = Some {| received_calls := log |} ->
  GetThreadData tid m = Some thread_data ->
  register_buffers kModeTrack tid wrapper buffers m
  = Some (with_state_tracker
            (Some {| received_calls := log ++ register_calls wrapper thread_data buffers |}) m).
Proof.
  revert m log. induction buffers as [| buffer rest IH]; intros m log Htrack Htracker Hdata.
  - cbn. rewrite app_nil_r. rewrite with_state_tracker_same by exact Htracker. reflexivity.
  - cbn [register_buffers]. unfold register_buffer, assert_not_null.
    rewrite Htrack, Htracker, Hdata. cbn [mbind option_bind].
    rewrite (IH _ (log ++ [AddEntry IID_ID3D12Resource buffer (call_id_ thread_data) wrapper
                             (parameter_buffer_ thread_data)]))
      by first [exact Htrack | exact Hdata | reflexivity].
    cbn. rewrite <- app_assoc. reflexivity.
Qed.

Lemma register_buffers_not_tracking tid wrapper buffers m :
  tracking kModeTrack m = false -> register_buffers kModeTrack tid wrapper buffers m = Some m.
Proof.
  intros Htrack. induction buffers as [| buffer rest IH]; [reflexivity |].
  cbn [register_buffers]. unfold register_buffer. rewrite Htrack. exact IH.
Qed.

End SwapChainFacts.

(** In recording-only mode there is no registry to update: a resize
    request completes, leaves the manager as it was, and the buffer array
    still takes the new length. *)
Lemma resize_recording_only
    (kModeTrack : Z) (GetBuffer : Ptr -> nat -> Ptr) (tid : ThreadId)
    (native_result : HRESULT) (wrapper : Ptr) (buffer_count width height : Z)
    (new_format : DXGI_FORMAT) (flags : Z)
    (info : IDXGISwapChainInfo) (m : D3D12CaptureManager) :
  tracking kModeTrack m = false -> 0 <= native_result ->
  exists info2,
    resize_request kModeTrack GetBuffer tid native_result wrapper buffer_count width height
      new_format flags (info, m) = Some (info2, m) /\
    length (child_images info2) = Z.to_nat buffer_count.
Proof.
  intros Htrack Hres.
  unfold resize_request, PreProcess_IDXGISwapChain_ResizeBuffers, ReleaseSwapChainImages.
  rewrite deregister_buffers_not_tracking by exact Htrack. cbn [mbind option_bind].
  unfold PostProcess_IDXGISwapChain_ResizeBuffers, ResizeSwapChainImages, SUCCEEDED.
  destruct (Z.leb_spec 0 native_result) as [_ | Hneg]; [| lia].
  unfold PreAcquireSwapChainImages.
  rewrite register_buffers_not_tracking by exact Htrack. cbn [mbind option_bind].
  eexists. split; [reflexivity |]. cbn. rewrite length_map, length_seq. reflexivity.
Qed.

(** A resize that the driver refuses re-registers nothing: the buffer
    array stays released. *)
Lemma resize_failed_registers_nothing
    (kModeTrack : Z) (GetBuffer : Ptr -> nat -> Ptr) (tid : ThreadId)
    (native_result : HRESULT) (wrapper : Ptr) (buffer_count : Z)
    (s : IDXGISwapChainInfo * D3D12CaptureManager) :
  native_result < 0 ->
  ResizeSwapChainImages kModeTrack GetBuffer tid wrapper native_result buffer_count s = Some s.
Proof.
  intros Hneg. unfold ResizeSwapChainImages, SUCCEEDED.
  destruct (Z.leb_spec 0 native_result) as [Hres | _]; [lia | reflexivity].
Qed.

(** C6.  In tracking mode ([kModeTrack] the mode bit [k], set in the
    capture mode, with state tracker and thread data in place), for every
    resize request whose native call succeeds: the pre-process hook,
    which runs before the native call, empties the buffer array and hands
    the tracker one [RemoveEntry] (followed by [TrackRelease]) for each
    buffer held until then and no [AddEntry]; the post-process hook then
    hands the tracker one [AddEntry] for each of the [buffer_count] new
    buffers and no [RemoveEntry], and leaves a buffer array of length
    [buffer_count].  So a resize from 2 buffers to 3 deregisters exactly
    2, registers exactly 3 and ends with an array of length 3. *)
Theorem resize_releases_then_reacquires_buffers
    (kModeTrack k : Z) (GetBuffer : Ptr -> nat -> Ptr) (tid : ThreadId)
    (native_result : HRESULT) (wrapper : Ptr) (buffer_count width height : Z)
    (new_format : DXGI_FORMAT) (flags : Z)
    (info : IDXGISwapChainInfo) (m : D3D12CaptureManager)
    (log : list TrackerCall) (thread_data : ThreadData) :
  0 <= k -> kModeTrack = 2 ^ k ->
  Z.testbit (GetCaptureMode m) k = true ->
  state_tracker_ m = Some {| received_calls := log |} ->
  GetThreadData tid m = Some thread_data ->
  0 <= native_result -> 0 <= buffer_count ->
  exists info1 m1 info2 m2,
    PreProcess_IDXGISwapChain_ResizeBuffers kModeTrack wrapper buffer_count width height
      new_format flags (info, m) = Some (info1, m1) /\
    child_images info1 = [] /\
    tracker_log m1 = log ++ release_calls (child_images info) /\
    count_calls is_RemoveEntry (tracker_log m1)
      = (count_calls is_RemoveEntry log + length (child_images info))%nat /\
    count_calls is_AddEntry (tracker_log m1) = count_calls is_AddEntry log /\
    PostProcess_IDXGISwapChain_ResizeBuffers kModeTrack GetBuffer tid wrapper native_result
      buffer_count width height new_format flags (info1, m1) = Some (info2, m2) /\
    child_images info2 = map (GetBuffer wrapper) (seq 0 (Z.to_nat buffer_count)) /\
    Z.of_nat (length (child_images info2)) = buffer_count /\
    tracker_log m2
      = tracker_log m1 ++ register_calls wrapper thread_data (child_images info2) /\
    count_calls is_AddEntry (tracker_log m2)
      = (count_calls is_AddEntry (tracker_log m1) + Z.to_nat buffer_count)%nat /\
    count_calls is_RemoveEntry (tracker_log m2)
      = count_calls is_RemoveEntry (tracker_log m1) /\
    resize_request kModeTrack GetBuffer tid native_result wrapper buffer_count width height
      new_format flags (info, m) = Some (info2, m2).
Proof.
  intros Hk Hmask Hon Htracker Hdata Hres Hcount.
  assert (Htrack : tracking kModeTrack m = true).
  { rewrite (tracking_tests_bit kModeTrack k m Hk Hmask). exact Hon. }
  set (buffers := map (GetBuffer wrapper) (seq 0 (Z.to_nat buffer_count))).
  set (log1 := log ++ release_calls (child_images info)).
  set (m1 := with_state_tracker (Some {| received_calls := log1 |}) m).
  set (info1 := {| child_images := [];
                   swapchain_format := swapchain_format info;
                   present_queue := present_queue info;
                   frame_counter := frame_counter info |}).
  set (m2 := with_state_tracker
               (Some {| received_calls := log1 ++ register_calls wrapper thread_data buffers |})
               m1).
  set (info2 := {| child_images := buffers;
                   swapchain_format := swapchain_format info1;
                   present_queue := present_queue info1;
                   frame_counter := frame_counter info1 |}).
  assert (Hpre : PreProcess_IDXGISwapChain_ResizeBuffers kModeTrack wrapper buffer_count
                   width height new_format flags (info, m) = Some (info1, m1)).
  { unfold PreProcess_IDXGISwapChain_ResizeBuffers, ReleaseSwapChainImages.
    rewrite (deregister_buffers_tracking kModeTrack (child_images info) m log Htrack Htracker).
    reflexivity. }
  assert (Hpost : PostProcess_IDXGISwapChain_ResizeBuffers kModeTrack GetBuffer tid wrapper
                    native_result buffer_count width height new_format flags (info1, m1)
                  = Some (info2, m2)).
  { unfold PostProcess_IDXGISwapChain_ResizeBuffers, ResizeSwapChainImages, SUCCEEDED.
    destruct (Z.leb_spec 0 native_result) as [_ | Hneg]; [| lia].
    unfold PreAcquireSwapChainImages. fold buffers.
    rewrite (register_buffers_tracking kModeTrack tid wrapper buffers m1 log1 thread_data
               Htrack eq_refl Hdata).
    reflexivity. }
  destruct (count_release_calls (child_images info)) as [Hrel_r Hrel_a].
  destruct (count_register_calls wrapper thread_data buffers) as [Hreg_a Hreg_r].
  assert (Hlen : length buffers = Z.to_nat buffer_count).
  { subst buffers. rewrite length_map, length_seq. reflexivity. }
  exists info1, m1, info2, m2.
  change (tracker_log m1) with log1.
  change (tracker_log m2) with (log1 ++ register_calls wrapper thread_data buffers).
  change (child_images info2) with buffers.
  split; [exact Hpre |]. split; [reflexivity |]. split; [reflexivity |].
  split; [subst log1; rewrite count_calls_app, Hrel_r; reflexivity |].
  split; [subst log1; rewrite count_calls_app, Hrel_a; lia |].
  split; [exact Hpost |]. split; [reflexivity |].
  split; [rewrite Hlen; lia |]. split; [reflexivity |].
  split; [rewrite count_calls_app, Hreg_a, Hlen; reflexivity |].
  split; [rewrite count_calls_app, Hreg_r; lia |].
  unfold resize_request. rewrite Hpre. cbn [mbind option_bind]. exact Hpost.
Qed.

Lemma resize_releases_then_reacquires_buffers_witness :
  exists info2 m2,
    resize_request 2 sample_GetBuffer 0%nat S_OK 4096 3 640 480 28 0
      (sample_swapchain_info, sample_tracking_manager) = Some (info2, m2) /\
    length (child_images info2) = 3%nat /\
    count_calls is_RemoveEntry (tracker_log m2) = 2%nat /\
    count_calls is_AddEntry (tracker_log m2) = 3%nat.
Proof.
  assert (Hres : 0 <= S_OK) by (unfold S_OK; lia).
  destruct (resize_releases_then_reacquires_buffers 2 1 sample_GetBuffer 0%nat S_OK 4096
              3 640 480 28 0 sample_swapchain_info sample_tracking_manager []
              {| call_id_ := 7; parameter_buffer_ := [Byte.x01; Byte.x02] |}
              ltac:(lia) eq_refl eq_refl eq_refl eq_refl Hres ltac:(lia))
    as (info1 & m1 & info2 & m2 & _ & _ & _ & Hrem1 & Hadd1 & _ & Himages & _ & _
        & Hadd2 & Hrem2 & Hrun).
  exists info2, m2. split; [exact Hrun |]. split.
  - rewrite Himages. reflexivity.
  - split.
    + rewrite Hrem2, Hrem1. reflexivity.
    + rewrite Hadd2, Hadd1. reflexivity.
Defined.

(** ** Properties of the diagnostics settings *)

Lemma wrapper_destroy_completes kModeTrack wrapper m :
  (tracking kModeTrack m = true -> is_Some (state_tracker_ m)) ->
  exists m', ProcessWrapperDestroy kModeTrack wrapper m = Some m'.
Proof.
  intros Hready. unfold ProcessWrapperDestroy.
  destruct (tracking kModeTrack m).
  - destruct (Hready eq_refl) as [tracker ->]. eexists. reflexivity.
  - eexists. reflexivity.
Qed.

(** C7.  The debug-layer and DRED configurations are kept as values in
    the manager.  After a configuring hook has run for a wrapper and that
    wrapper has then been destroyed ([ProcessWrapperDestroy], which
    completes in recording-only mode and whenever a state tracker is
    there), [GetEnableDebugLayerObjectId] still returns the id of the
    configuring object, and [GetEnableDREDInfo] still returns its id
    together with the enablement it configured, the other DRED values
    being those recorded before. *)
Theorem diagnostics_survive_release_of_configuring_object
    (kModeTrack : Z) (GetCaptureId : Ptr -> HandleId) (wrapper : Ptr)
    (enablement : D3D12_DRED_ENABLEMENT) (m : D3D12CaptureManager) :
  (tracking kModeTrack m = true -> is_Some (state_tracker_ m)) ->
  (exists m',
     ProcessWrapperDestroy kModeTrack wrapper
       (PostProcess_ID3D12Debug_EnableDebugLayer GetCaptureId wrapper m) = Some m' /\
     GetEnableDebugLayerObjectId m' = GetCaptureId wrapper /\
     GetEnableDREDInfo m' = GetEnableDREDInfo m) /\
  (exists m',
     ProcessWrapperDestroy kModeTrack wrapper
       (PostProcess_ID3D12Debug1_EnableDebugLayer GetCaptureId wrapper m) = Some m' /\
     GetEnableDebugLayerObjectId m' = GetCaptureId wrapper /\
     GetEnableDREDInfo m' = GetEnableDREDInfo m) /\
  (exists m',
     ProcessWrapperDestroy kModeTrack wrapper
       (PostProcess_ID3D12DeviceRemovedExtendedDataSettings_SetAutoBreadcrumbsEnablement
          GetCaptureId wrapper enablement m) = Some m' /\
     GetEnableDebugLayerObjectId m' = GetEnableDebugLayerObjectId m /\
     GetEnableDREDInfo m' =
       {| dred_settings1_object_id := GetCaptureId wrapper;
          set_auto_breadcrumbs_enablement_ := enablement;
          set_breadcrumb_context_enablement_ :=
            set_breadcrumb_context_enablement_ (GetEnableDREDInfo m);
          set_page_fault_enablement_ := set_page_fault_enablement_ (GetEnableDREDInfo m) |}) /\
  (exists m',
     ProcessWrapperDestroy kModeTrack wrapper
       (PostProcess_ID3D12DeviceRemovedExtendedDataSettings1_SetBreadcrumbContextEnablement
          GetCaptureId wrapper enablement m) = Some m' /\
     GetEnableDebugLayerObjectId m' = GetEnableDebugLayerObjectId m /\
     GetEnableDREDInfo m' =
       {| dred_settings1_object_id := GetCaptureId wrapper;
          set_auto_breadcrumbs_enablement_ :=
            set_auto_breadcrumbs_enablement_ (GetEnableDREDInfo m);
          set_breadcrumb_context_enablement_ := enablement;
          set_page_fault_enablement_ := set_page_fault_enablement_ (GetEnableDREDInfo m) |}) /\
  (exists m',
     ProcessWrapperDestroy kModeTrack wrapper
       (PostProcess_ID3D12DeviceRemovedExtendedDataSettings_SetPageFaultEnablement
          GetCaptureId wrapper enablement m) = Some m' /\
     GetEnableDebugLayerObjectId m' = GetEnableDebugLayerObjectId m /\
     GetEnableDREDInfo m' =
       {| dred_settings1_object_id := GetCaptureId wrapper;
          set_auto_breadcrumbs_enablement_ :=
            set_auto_breadcrumbs_enablement_ (GetEnableDREDInfo m);
          set_breadcrumb_context_enablement_ :=
            set_breadcrumb_context_enablement_ (GetEnableDREDInfo m);
          set_page_fault_enablement_ := enablement |}).
Proof.
  intros Hready.
  repeat split;
    match goal with
    | |- exists m', ProcessWrapperDestroy _ _ ?configured = Some m' /\ _ =>
        destruct (wrapper_destroy_completes kModeTrack wrapper configured Hready)
          as [m' Hrun];
        destruct (wrapper_destroy_frame kModeTrack wrapper configured m' Hrun)
          as (_ & _ & Hid & Hdred & _);
        exists m'; split; [exact Hrun |]; split; [rewrite Hid | rewrite Hdred]; reflexivity
    end.
Qed.

Lemma diagnostics_survive_release_of_configuring_object_witness :
  (exists m',
     ProcessWrapperDestroy 2 4096
       (PostProcess_ID3D12Debug_EnableDebugLayer sample_GetCaptureId 4096
          sample_tracking_manager) = Some m' /\
     GetEnableDebugLayerObjectId m' = 5096) /\
  (exists m',
     ProcessWrapperDestroy 2 4096
       (PostProcess_ID3D12DeviceRemovedExtendedDataSettings_SetPageFaultEnablement
          sample_GetCaptureId 4096 D3D12_DRED_ENABLEMENT_FORCED_ON
          sample_tracking_manager) = Some m' /\
     dred_settings1_object_id (GetEnableDREDInfo m') = 5096 /\
     set_page_fault_enablement_ (GetEnableDREDInfo m') = D3D12_DRED_ENABLEMENT_FORCED_ON).
Proof.
  assert (Hready : tracking 2 sample_tracking_manager = true ->
                   is_Some (state_tracker_ sample_tracking_manager))
    by (intros _; eexists; reflexivity).
  destruct (diagnostics_survive_release_of_configuring_object 2 sample_GetCaptureId 4096
              D3D12_DRED_ENABLEMENT_FORCED_ON sample_tracking_manager Hready)
    as ((m1 & Hrun1 & Hid1 & _) & _ & _ & _ & (m2 & Hrun2 & _ & Hdred2)).
  split.
  - exists m1. split; [exact Hrun1 | exact Hid1].
  - exists m2. split; [exact Hrun2 |]. rewrite Hdred2. split; reflexivity.
Defined.

(** ** Properties of the singleton *)

Lemma lifecycle_step_counted p r :
  counted p ->
  counted (lifecycle_step p r) /\
  instance_count_ (lifecycle_step p r) = count_step (instance_count_ p) r.
Proof.
  unfold counted, Get. intros Hinv. destruct r; cbn.
  - unfold CreateInstance. destruct (instance_ p) as [m |] eqn:Hinst; cbn.
    + split; [split; discriminate | reflexivity].
    + split; [split; discriminate |]. destruct Hinv as [Hzero _].
      rewrite (Hzero eq_refl). reflexivity.
  - unfold DestroyInstance. destruct (instance_count_ p) as [| n] eqn:Hcount.
    + rewrite Hcount. split; [exact Hinv | reflexivity].
    + cbn. split; [| reflexivity]. destruct n as [| n'].
      * split; reflexivity.
      * split; [| discriminate]. intros Hnone.
        destruct Hinv as [Hzero _]. specialize (Hzero Hnone). discriminate.
Qed.

Lemma run_lifecycle_counted rs p :
  counted p ->
  counted (run_lifecycle rs p) /\
  instance_count_ (run_lifecycle rs p) = fold_left count_step rs (instance_count_ p).
Proof.
  revert p. induction rs as [| r rest IH]; intros p Hinv.
  - split; [exact Hinv | reflexivity].
  - destruct (lifecycle_step_counted p r Hinv) as [Hinv' Hcount].
    cbn [run_lifecycle fold_left]. rewrite <- Hcount. apply IH. exact Hinv'.
Qed.

(** C8.  The singleton is reference counted.  When there is no instance,
    [CreateInstance] constructs it and the count is 1; when there is one,
    [CreateInstance] keeps that instance and only adds one to the count.
    [DestroyInstance] on a count of [n + 1] leaves the count at [n],
    destructs the instance when [n] is zero and keeps it otherwise; on a
    count of zero it changes nothing.  Along any sequence of these
    requests from the start, the count is the number of acquisitions not
    yet released and the instance exists exactly while it is not zero. *)
Theorem singleton_is_reference_counted (p : Singleton) :
  (Get p = None ->
     CreateInstance p
     = (true, {| instance_ := Some new_D3D12CaptureManager; instance_count_ := 1 |})) /\
  (forall m, Get p = Some m ->
     CreateInstance p
     = (true, {| instance_ := Some m; instance_count_ := S (instance_count_ p) |})) /\
  (forall n, instance_count_ p = S n ->
     instance_count_ (DestroyInstance p) = n /\
     (n = 0%nat -> Get (DestroyInstance p) = None) /\
     (n <> 0%nat -> Get (DestroyInstance p) = Get p)) /\
  (instance_count_ p = 0%nat -> DestroyInstance p = p) /\
  (forall rs : list LifecycleRequest,
     instance_count_ (run_lifecycle rs no_instance) = fold_left count_step rs 0%nat /\
     (Get (run_lifecycle rs no_instance) = None
      <-> instance_count_ (run_lifecycle rs no_instance) = 0%nat)).
Proof.
  split; [| split; [| split; [| split]]].
  - unfold Get, CreateInstance. intros ->. reflexivity.
  - unfold Get, CreateInstance. intros m ->. reflexivity.
  - intros n Hcount. unfold DestroyInstance, Get. rewrite Hcount. cbn.
    split; [reflexivity |]. split.
    + intros ->. reflexivity.
    + intros Hne. destruct n; [contradiction | reflexivity].
  - intros Hcount. unfold DestroyInstance. rewrite Hcount. reflexivity.
  - intros rs.
    assert (Hstart : counted no_instance) by (split; reflexivity).
    destruct (run_lifecycle_counted rs no_instance Hstart) as [Hinv Hcount].
    split; [exact Hcount | exact Hinv].
Qed.

Lemma singleton_is_reference_counted_witness :
  let p1 := snd (CreateInstance no_instance) in
  let p2 := snd (CreateInstance p1) in
  let p3 := DestroyInstance p2 in
  let p4 := DestroyInstance p3 in
  Get p1 = Some new_D3D12CaptureManager /\ instance_count_ p2 = 2%nat /\
  Get p3 = Some new_D3D12CaptureManager /\ Get p4 = None /\ DestroyInstance p4 = p4.
Proof.
  intros p1 p2 p3 p4.
  destruct (singleton_is_reference_counted no_instance) as (Hfirst & _).
  destruct (singleton_is_reference_counted p1) as (_ & Hnext & _).
  destruct (singleton_is_reference_counted p2) as (_ & _ & Hdown2 & _).
  destruct (singleton_is_reference_counted p3) as (_ & _ & Hdown3 & _).
  destruct (singleton_is_reference_counted p4) as (_ & _ & _ & Hzero & _).
  split; [subst p1; rewrite (Hfirst eq_refl); reflexivity |].
  split; [subst p2; rewrite (Hnext new_D3D12CaptureManager eq_refl); reflexivity |].
  split; [destruct (Hdown2 1%nat eq_refl) as (_ & _ & Hkeep); subst p3;
          rewrite Hkeep by discriminate; reflexivity |].
  split; [destruct (Hdown3 0%nat eq_refl) as (_ & Hgone & _); exact (Hgone eq_refl) |].
  exact (Hzero eq_refl).
Defined.

(** ** Further properties of the call scope *)

Lemma scope_step_depth tid cs op :
  is_uint32 (cs tid) ->
  scope_step cs op tid = wrap_uint32 (cs tid + net_entries tid [op]) /\
  is_uint32 (scope_step cs op tid).
Proof.
  intros Hrange. destruct op as [t | t]; cbn [scope_step net_entries].
  - destruct (Nat.eqb_spec t tid) as [-> | Hne].
    + rewrite <- increment_returns_stored. cbn [IncrementCallScope fst].
      rewrite Z.add_0_r. split; [reflexivity | apply wrap_uint32_range].
    + rewrite increment_other by congruence.
      rewrite Z.add_0_r, wrap_uint32_small by exact Hrange. split; [reflexivity | exact Hrange].
  - destruct (Nat.eqb_spec t tid) as [-> | Hne].
    + rewrite <- decrement_returns_stored. cbn [DecrementCallScope fst].
      rewrite Z.add_0_r. split; [reflexivity | apply wrap_uint32_range].
    + rewrite decrement_other by congruence.
      rewrite Z.add_0_r, wrap_uint32_small by exact Hrange. split; [reflexivity | exact Hrange].
Qed.

Lemma net_entries_cons tid op rest :
  net_entries tid (op :: rest) = net_entries tid [op] + net_entries tid rest.
Proof. destruct op; cbn [net_entries]; lia. Qed.

Lemma run_scope_depth tid ops cs :
  is_uint32 (cs tid) ->
  run_scope ops cs tid = wrap_uint32 (cs tid + net_entries tid ops).
Proof.
  revert cs. induction ops as [| op rest IH]; intros cs Hrange.
  - cbn. rewrite Z.add_0_r. symmetry. apply wrap_uint32_small, Hrange.
  - destruct (scope_step_depth tid cs op Hrange) as [Hstep Hrange'].
    change (run_scope (op :: rest) cs) with (run_scope rest (scope_step cs op)).
    rewrite (IH _ Hrange'), Hstep, (net_entries_cons tid op rest).
    unfold wrap_uint32. rewrite Zplus_mod_idemp_l. f_equal. lia.
Qed.

(** X1.  Over any interleaving of the call-scope operations of any number
    of threads, the depth of a thread that started at a [uint32_t] value
    is that value plus its own entries minus its own exits, modulo 2^32.
    So the operations of other threads never show in it, and whenever the
    thread's entries and exits balance, its depth is back where it
    started. *)
Theorem call_scope_counts_own_net_entries
    (tid : ThreadId) (ops : list ScopeOp) (call_scope_ : CallScope) :
  is_uint32 (call_scope_ tid) ->
  run_scope ops call_scope_ tid
    = wrap_uint32 (call_scope_ tid + net_entries tid ops) /\
  (net_entries tid ops = 0 -> run_scope ops call_scope_ tid = call_scope_ tid) /\
  (0 <= call_scope_ tid + net_entries tid ops < uint32_modulus ->
     run_scope ops call_scope_ tid = call_scope_ tid + net_entries tid ops).
Proof.
  intros Hrange. pose proof (run_scope_depth tid ops call_scope_ Hrange) as Hdepth.
  split; [exact Hdepth |]. split.
  - intros Hnet. rewrite Hdepth, Hnet, Z.add_0_r. apply wrap_uint32_small, Hrange.
  - intros Hfit. rewrite Hdepth. apply wrap_uint32_small. exact Hfit.
Qed.

Lemma call_scope_counts_own_net_entries_witness :
  run_scope [Enter 0%nat; Enter 1%nat; Enter 0%nat; Leave 1%nat; Leave 0%nat]
    initial_call_scope 0%nat = 1 /\
  run_scope [Enter 0%nat; Enter 1%nat; Enter 0%nat; Leave 1%nat; Leave 0%nat]
    initial_call_scope 1%nat = 0.
Proof.
  assert (Hrange : forall tid, is_uint32 (initial_call_scope tid))
    by (intros tid; vm_compute; split; congruence).
  split.
  - destruct (call_scope_counts_own_net_entries 0%nat
                [Enter 0%nat; Enter 1%nat; Enter 0%nat; Leave 1%nat; Leave 0%nat]
                initial_call_scope (Hrange 0%nat)) as (_ & _ & Hfit).
    apply Hfit. vm_compute. split; congruence.
  - destruct (call_scope_counts_own_net_entries 1%nat
                [Enter 0%nat; Enter 1%nat; Enter 0%nat; Leave 1%nat; Leave 0%nat]
                initial_call_scope (Hrange 1%nat)) as (_ & Hbalanced & _).
    apply Hbalanced. reflexivity.
Defined.

Lemma increments_depth_in_range n tid cs :
  is_uint32 (cs tid) -> increments n tid cs tid = wrap_uint32 (cs tid + Z.of_nat n).
Proof.
  intros Hrange. destruct (increments_depth n tid cs) as [E | [-> E]]; [exact E |].
  rewrite E. cbn. rewrite Z.add_0_r. symmetry. apply wrap_uint32_small, Hrange.
Qed.

(** X2.  Nested calls see their nesting level: when a thread at depth [d]
    has entered [n] further calls without leaving and the counter has not
    reached its maximum, the next [IncrementCallScope] returns
    [d + n + 1].  From depth 0 it therefore returns 1 for the outermost
    call only.  At the maximum, 4294967295, it returns 0. *)
Theorem nested_increment_returns_level
    (n : nat) (tid : ThreadId) (call_scope_ : CallScope) :
  is_uint32 (call_scope_ tid) ->
  call_scope_ tid + Z.of_nat n < uint32_modulus - 1 ->
  fst (IncrementCallScope tid (increments n tid call_scope_))
    = call_scope_ tid + Z.of_nat n + 1 /\
  (call_scope_ tid = 0 ->
     fst (IncrementCallScope tid (increments n tid call_scope_)) = 1 <-> n = 0%nat) /\
  (forall other : CallScope, other tid = 4294967295 ->
     fst (IncrementCallScope tid other) = 0).
Proof.
  intros Hrange Hfit.
  assert (Hret : fst (IncrementCallScope tid (increments n tid call_scope_))
                 = call_scope_ tid + Z.of_nat n + 1).
  { cbn [IncrementCallScope fst]. rewrite (increments_depth_in_range n tid _ Hrange).
    unfold is_uint32, uint32_modulus in *.
    rewrite (wrap_uint32_small (call_scope_ tid + Z.of_nat n))
      by (unfold is_uint32, uint32_modulus; lia).
    apply wrap_uint32_small. unfold is_uint32, uint32_modulus. lia. }
  split; [exact Hret |]. split.
  - intros Hzero. rewrite Hret, Hzero. lia.
  - intros other Hmax. cbn [IncrementCallScope fst]. rewrite Hmax. reflexivity.
Qed.

Lemma nested_increment_returns_level_witness :
  fst (IncrementCallScope 0%nat (increments 2 0%nat initial_call_scope)) = 3.
Proof.
  assert (Hrange : is_uint32 (initial_call_scope 0%nat)) by (vm_compute; split; congruence).
  assert (Hfit : initial_call_scope 0%nat + Z.of_nat 2 < uint32_modulus - 1)
    by (vm_compute; reflexivity).
  destruct (nested_increment_returns_level 2 0%nat initial_call_scope Hrange Hfit)
    as [Hret _].
  exact Hret.
Defined.

(** ** Further properties of the inline hooks *)

Lemma tracking_mask_bits (kModeTrack : Z) (m : D3D12CaptureManager) :
  tracking kModeTrack m = true <->
  forall n, 0 <= n -> Z.testbit kModeTrack n = true -> Z.testbit (GetCaptureMode m) n = true.
Proof.
  unfold tracking. rewrite Z.eqb_eq. split.
  - intros Hland n Hn Hbit. rewrite <- Hland in Hbit. rewrite Z.land_spec in Hbit.
    apply andb_true_iff in Hbit. tauto.
  - intros Hbits. apply Z.bits_inj'. intros n Hn. rewrite Z.land_spec.
    destruct (Z.testbit kModeTrack n) eqn:Hbit.
    + rewrite (Hbits n Hn Hbit). reflexivity.
    + apply andb_false_r.
Qed.

(** X3.  The mask test [(GetCaptureMode() & kModeTrack) == kModeTrack]
    holds exactly when every bit of [kModeTrack] is set in the capture
    mode, whatever the value of [kModeTrack]; so a mode that has further
    bits set besides those of a tracking mode is a tracking mode too. *)
Theorem tracking_needs_every_mask_bit (kModeTrack : Z) (m : D3D12CaptureManager) :
  (tracking kModeTrack m = true <->
   forall n, 0 <= n -> Z.testbit kModeTrack n = true ->
             Z.testbit (GetCaptureMode m) n = true) /\
  (forall (extra : Z) (m' : D3D12CaptureManager),
     GetCaptureMode m' = Z.lor (GetCaptureMode m) extra ->
     tracking kModeTrack m = true -> tracking kModeTrack m' = true).
Proof.
  split; [apply tracking_mask_bits |].
  intros extra m' Hmode Htrack. apply tracking_mask_bits. intros n Hn Hbit.
  rewrite Hmode, Z.lor_spec.
  rewrite (proj1 (tracking_mask_bits kModeTrack m) Htrack n Hn Hbit). reflexivity.
Qed.

Lemma tracking_needs_every_mask_bit_witness :
  tracking 2 sample_tracking_manager = true.
Proof.
  apply (proj1 (tracking_needs_every_mask_bit 2 sample_tracking_manager)).
  intros n Hn Hbit. change 2 with (2 ^ 1) in Hbit.
  rewrite Z.pow2_bits_eqb in Hbit by lia. apply Z.eqb_eq in Hbit. subst n. reflexivity.
Defined.

Lemma is_Some_None_False {A : Type} : ~ is_Some (@None A).
Proof. intros [x Hx]. discriminate Hx. Qed.

Lemma creation_registers_true result handle :
  creation_registers result handle = true <->
  0 <= result /\ exists object, handle = Some object /\ object <> nullptr.
Proof.
  unfold creation_registers. rewrite andb_true_iff, Z.leb_le. split.
  - intros [Hres Hhandle]. split; [exact Hres |]. destruct handle as [object |]; [| discriminate].
    exists object. split; [reflexivity |].
    destruct (Z.eqb_spec object nullptr) as [_ | Hne]; [discriminate | exact Hne].
  - intros (Hres & object & -> & Hne). split; [exact Hres |].
    destruct (Z.eqb_spec object nullptr) as [Heq | _]; [contradiction | reflexivity].
Qed.

Lemma end_create_unfold kModeTrack tid result riid handle wrapper m :
  EndCreateMethodCallCapture kModeTrack tid result riid handle wrapper m
  = if tracking kModeTrack m && creation_registers result handle then
      match handle, state_tracker_ m, GetThreadData tid m with
      | Some object, Some tracker, Some thread_data =>
          Some (EndMethodCallCapture tid
                  (with_state_tracker
                     (Some (call_tracker
                              (AddEntry riid object (call_id_ thread_data) wrapper
                                 (parameter_buffer_ thread_data)) tracker)) m))
      | _, _, _ => None
      end
    else Some (EndMethodCallCapture tid m).
Proof.
  unfold EndCreateMethodCallCapture, creation_registers, SUCCEEDED, assert_not_null.
  destruct (tracking kModeTrack m); [| reflexivity].
  destruct (0 <=? result); [| reflexivity]. cbn [andb].
  destruct handle as [object |]; [| reflexivity].
  destruct (negb (object =? nullptr)); [| reflexivity].
  destruct (state_tracker_ m) as [tracker |]; [| reflexivity].
  destruct (GetThreadData tid m) as [thread_data |]; reflexivity.
Qed.

Lemma end_command_list_unfold {F A : Type} kModeTrack tid list_wrapper (func : F) (args : A) m :
  EndCommandListMethodCallCapture kModeTrack tid list_wrapper func args m
  = if tracking kModeTrack m then
      match state_tracker_ m, GetThreadData tid m with
      | Some tracker, Some thread_data =>
          Some (EndMethodCallCapture tid
                  (with_state_tracker
                     (Some (call_tracker
                              (TrackCommand F A list_wrapper (call_id_ thread_data)
                                 (parameter_buffer_ thread_data) func args) tracker)) m))
      | _, _ => None
      end
    else Some (EndMethodCallCapture tid m).
Proof.
  unfold EndCommandListMethodCallCapture, assert_not_null.
  destruct (tracking kModeTrack m); [| reflexivity].
  destruct (state_tracker_ m) as [tracker |]; [| reflexivity].
  destruct (GetThreadData tid m) as [thread_data |]; reflexivity.
Qed.

(** X4.  What each inline hook needs in order to complete.  A creation
    call needs the state tracker and the thread data only when it is
    about to register (tracking on, success, non-null object): a failed or
    empty creation completes without them.  A command-list call needs
    both whenever tracking is on.  A wrapper destruction needs the state
    tracker whenever tracking is on, and never the thread data.  With
    tracking off none of them needs anything. *)
Theorem hooks_complete_iff_needed_objects_present
    (kModeTrack : Z) (tid : ThreadId) (m : D3D12CaptureManager) :
  (forall (result : HRESULT) (riid : IID) (handle : OutPtr) (create_object_wrapper : Ptr),
     is_Some (EndCreateMethodCallCapture kModeTrack tid result riid handle
                create_object_wrapper m) <->
     (tracking kModeTrack m = true -> creation_registers result handle = true ->
      is_Some (state_tracker_ m) /\ is_Some (GetThreadData tid m))) /\
  (forall (GetHandlesFunc GetHandlesArgs : Type) (list_wrapper : Ptr)
          (func : GetHandlesFunc) (args : GetHandlesArgs),
     is_Some (EndCommandListMethodCallCapture kModeTrack tid list_wrapper func args m) <->
     (tracking kModeTrack m = true ->
      is_Some (state_tracker_ m) /\ is_Some (GetThreadData tid m))) /\
  (forall wrapper : Ptr,
     is_Some (ProcessWrapperDestroy kModeTrack wrapper m) <->
     (tracking kModeTrack m = true -> is_Some (state_tracker_ m))).
Proof.
  split; [| split].
  - intros result riid handle wrapper. rewrite end_create_unfold.
    destruct (tracking kModeTrack m); cbn [andb].
    + destruct (creation_registers result handle) eqn:Hreg.
      * apply creation_registers_true in Hreg as (_ & object & -> & _).
        destruct (state_tracker_ m) as [tracker |], (GetThreadData tid m) as [thread_data |];
          split; intros H;
          try (specialize (H eq_refl eq_refl) as [H1 H2]);
          try (exfalso; eapply is_Some_None_False; eassumption);
          try (eexists; reflexivity);
          try (intros _ _; split; eexists; reflexivity).
      * split; [intros _ _ Hno; discriminate | intros _; eexists; reflexivity].
    + split; [intros _ Hno; discriminate | intros _; eexists; reflexivity].
  - intros F A list_wrapper func args. rewrite end_command_list_unfold.
    destruct (tracking kModeTrack m).
    + destruct (state_tracker_ m) as [tracker |], (GetThreadData tid m) as [thread_data |];
        split; intros H;
        try (specialize (H eq_refl) as [H1 H2]);
        try (exfalso; eapply is_Some_None_False; eassumption);
        try (eexists; reflexivity);
        try (intros _; split; eexists; reflexivity).
    + split; [intros _ Hno; discriminate | intros _; eexists; reflexivity].
  - intros wrapper. unfold ProcessWrapperDestroy.
    destruct (tracking kModeTrack m).
    + destruct (state_tracker_ m) as [tracker |]; cbn; split; intros H;
        try (specialize (H eq_refl));
        try (exfalso; eapply is_Some_None_False; eassumption);
        try (eexists; reflexivity);
        try (intros _; eexists; reflexivity).
    + split; [intros _ Hno; discriminate | intros _; eexists; reflexivity].
Qed.

Lemma hooks_complete_iff_needed_objects_present_witness :
  is_Some (EndCreateMethodCallCapture 2 0%nat E_FAIL 99 None 77
             (DestroyStateTracker sample_tracking_manager)) /\
  ~ is_Some (ProcessWrapperDestroy 2 4096 (DestroyStateTracker sample_tracking_manager)).
Proof.
  destruct (hooks_complete_iff_needed_objects_present 2 0%nat
              (DestroyStateTracker sample_tracking_manager)) as (Hcreate & _ & Hdestroy).
  split.
  - apply Hcreate. intros _ Hreg. vm_compute in Hreg. discriminate Hreg.
  - intros Hsome. apply Hdestroy in Hsome; [| reflexivity].
    destruct Hsome as [tracker Htracker]. discriminate Htracker.
Defined.

(** ** Sequences of hooks *)

Lemma unchanged_outside_refl m : unchanged_outside_tracker_and_sink m m.
Proof. repeat split. Qed.

Lemma unchanged_outside_trans m1 m2 m3 :
  unchanged_outside_tracker_and_sink m1 m2 ->
  unchanged_outside_tracker_and_sink m2 m3 ->
  unchanged_outside_tracker_and_sink m1 m3.
Proof.
  unfold unchanged_outside_tracker_and_sink.
  intros (A1 & A2 & A3 & A4 & A5 & A6 & A7 & A8 & A9 & A10 & A11 & A12)
         (B1 & B2 & B3 & B4 & B5 & B6 & B7 & B8 & B9 & B10 & B11 & B12).
  repeat split; congruence.
Qed.

Lemma unchanged_outside_tracking kModeTrack m m' :
  unchanged_outside_tracker_and_sink m m' -> tracking kModeTrack m' = tracking kModeTrack m.
Proof. intros (Hmode & _). unfold tracking, GetCaptureMode. rewrite Hmode. reflexivity. Qed.

Lemma unchanged_outside_thread_data m m' tid :
  unchanged_outside_tracker_and_sink m m' -> GetThreadData tid m' = GetThreadData tid m.
Proof. intros (_ & Hdata & _). unfold GetThreadData. rewrite Hdata. reflexivity. Qed.

Lemma unchanged_outside_records m m' tids :
  unchanged_outside_tracker_and_sink m m' ->
  map (call_record_of m') tids = map (call_record_of m) tids.
Proof.
  intros Hsame. apply map_ext. intros tid. unfold call_record_of.
  rewrite (unchanged_outside_thread_data m m' tid Hsame). reflexivity.
Qed.

Lemma tracker_log_some m tracker :
  state_tracker_ m = Some tracker -> tracker_log m = received_calls tracker.
Proof. unfold tracker_log. intros ->. reflexivity. Qed.

(** What one completed hook has done. *)
Lemma run_hook_effect kModeTrack h m m' :
  run_hook kModeTrack h m = Some m' ->
  unchanged_outside_tracker_and_sink m m' /\
  trace_sink_ m' = trace_sink_ m ++ map (call_record_of m) (hook_threads [h]) /\
  (is_Some (state_tracker_ m') <-> is_Some (state_tracker_ m)) /\
  (tracking kModeTrack m = false -> state_tracker_ m' = state_tracker_ m) /\
  exists suffix,
    tracker_log m' = tracker_log m ++ suffix /\
    count_calls is_AddEntry suffix
      = (if tracking kModeTrack m && hook_registers h then 1 else 0)%nat /\
    count_calls is_TrackCommand suffix
      = (if tracking kModeTrack m && hook_is_command h then 1 else 0)%nat /\
    List.filter is_release_call suffix
      = (if tracking kModeTrack m then release_calls (hook_destroyed [h]) else []) /\
    Forall entry_object_nonnull suffix.
Proof.
  destruct h as [tid result riid handle wrapper | F A tid list_wrapper func args | wrapper];
    cbn [run_hook hook_registers hook_is_command].
  - rewrite end_create_unfold.
    destruct (tracking kModeTrack m) eqn:Htrack; cbn [andb].
    + destruct (creation_registers result handle) eqn:Hreg.
      * apply creation_registers_true in Hreg as (_ & object & -> & Hobject).
        destruct (state_tracker_ m) as [tracker |] eqn:Htracker; [| discriminate].
        destruct (GetThreadData tid m) as [thread_data |] eqn:Hdata; [| discriminate].
        intros [= <-].
        split; [repeat split |]. split; [reflexivity |].
        split; [split; intros _; eexists; reflexivity |].
        split; [discriminate |].
        exists [AddEntry riid object (call_id_ thread_data) wrapper
                  (parameter_buffer_ thread_data)].
        rewrite (tracker_log_some m tracker Htracker).
        split; [reflexivity |]. split; [reflexivity |]. split; [reflexivity |].
        split; [reflexivity |]. constructor; [exact Hobject | constructor].
      * intros [= <-].
        split; [repeat split |]. split; [reflexivity |]. split; [reflexivity |].
        split; [reflexivity |].
        exists []. rewrite app_nil_r. repeat split. constructor.
    + intros [= <-].
      split; [repeat split |]. split; [reflexivity |]. split; [reflexivity |].
      split; [reflexivity |].
      exists []. rewrite app_nil_r. repeat split. constructor.
  - rewrite end_command_list_unfold.
    destruct (tracking kModeTrack m) eqn:Htrack; cbn [andb].
    + destruct (state_tracker_ m) as [tracker |] eqn:Htracker; [| discriminate].
      destruct (GetThreadData tid m) as [thread_data |] eqn:Hdata; [| discriminate].
      intros [= <-].
      split; [repeat split |]. split; [reflexivity |].
      split; [split; intros _; eexists; reflexivity |].
      split; [discriminate |].
      exists [TrackCommand F A list_wrapper (call_id_ thread_data)
                (parameter_buffer_ thread_data) func args].
      rewrite (tracker_log_some m tracker Htracker).
      split; [reflexivity |]. split; [reflexivity |]. split; [reflexivity |].
      split; [reflexivity |]. constructor; [exact I | constructor].
    + intros [= <-].
      split; [repeat split |]. split; [reflexivity |]. split; [reflexivity |].
      split; [reflexivity |].
      exists []. rewrite app_nil_r. repeat split. constructor.
  - unfold ProcessWrapperDestroy.
    destruct (tracking kModeTrack m) eqn:Htrack; cbn [andb].
    + destruct (state_tracker_ m) as [tracker |] eqn:Htracker; [| discriminate].
      cbn [mbind option_bind]. intros [= <-].
      split; [repeat split |]. split; [cbn; rewrite app_nil_r; reflexivity |].
      split; [split; intros _; eexists; reflexivity |].
      split; [discriminate |].
      exists [RemoveEntry wrapper; TrackRelease wrapper].
      rewrite (tracker_log_some m tracker Htracker).
      split; [cbn; rewrite <- app_assoc; reflexivity |].
      split; [reflexivity |]. split; [reflexivity |]. split; [reflexivity |].
      repeat constructor.
    + intros [= <-].
      split; [repeat split |]. split; [cbn; rewrite app_nil_r; reflexivity |].
      split; [reflexivity |]. split; [reflexivity |].
      exists []. rewrite app_nil_r. repeat split. constructor.
Qed.

Lemma hook_threads_cons h rest : hook_threads (h :: rest) = hook_threads [h] ++ hook_threads rest.
Proof. unfold hook_threads. cbn [flat_map]. rewrite app_nil_r. reflexivity. Qed.

Lemma hook_destroyed_cons h rest :
  hook_destroyed (h :: rest) = hook_destroyed [h] ++ hook_destroyed rest.
Proof. unfold hook_destroyed. cbn [flat_map]. rewrite app_nil_r. reflexivity. Qed.

Lemma release_calls_app l1 l2 : release_calls (l1 ++ l2) = release_calls l1 ++ release_calls l2.
Proof. unfold release_calls. apply flat_map_app. Qed.

(** What a completed sequence of hooks has done. *)
Lemma run_hooks_effect kModeTrack hs m m' :
  run_hooks kModeTrack hs m = Some m' ->
  unchanged_outside_tracker_and_sink m m' /\
  trace_sink_ m' = trace_sink_ m ++ map (call_record_of m) (hook_threads hs) /\
  (is_Some (state_tracker_ m') <-> is_Some (state_tracker_ m)) /\
  (tracking kModeTrack m = false -> state_tracker_ m' = state_tracker_ m) /\
  exists suffix,
    tracker_log m' = tracker_log m ++ suffix /\
    count_calls is_AddEntry suffix
      = (if tracking kModeTrack m then length (List.filter hook_registers hs) else 0)%nat /\
    count_calls is_TrackCommand suffix
      = (if tracking kModeTrack m then length (List.filter hook_is_command hs) else 0)%nat /\
    List.filter is_release_call suffix
      = (if tracking kModeTrack m then release_calls (hook_destroyed hs) else []) /\
    Forall entry_object_nonnull suffix.
Proof.
  revert m. induction hs as [| h rest IH]; intros m.
  - cbn [run_hooks]. intros [= <-].
    split; [apply unchanged_outside_refl |]. split; [cbn; rewrite app_nil_r; reflexivity |].
    split; [reflexivity |]. split; [reflexivity |].
    exists []. rewrite app_nil_r. destruct (tracking kModeTrack m); repeat split; constructor.
  - cbn [run_hooks]. destruct (run_hook kModeTrack h m) as [m1 |] eqn:Hstep; [| discriminate].
    cbn [mbind option_bind]. intros Hrest.
    destruct (run_hook_effect kModeTrack h m m1 Hstep)
      as (Hsame1 & Hsink1 & Hsome1 & Hoff1 & suffix1 & Hlog1 & Hadd1 & Hcmd1 & Hrel1 & Hnn1).
    destruct (IH m1 Hrest)
      as (Hsame2 & Hsink2 & Hsome2 & Hoff2 & suffix2 & Hlog2 & Hadd2 & Hcmd2 & Hrel2 & Hnn2).
    pose proof (unchanged_outside_tracking kModeTrack m m1 Hsame1) as Htrack.
    rewrite Htrack in *.
    split; [exact (unchanged_outside_trans m m1 m' Hsame1 Hsame2) |].
    split.
    { rewrite Hsink2, Hsink1, (unchanged_outside_records m m1 _ Hsame1).
      rewrite (hook_threads_cons h rest), map_app, <- app_assoc. reflexivity. }
    split; [rewrite Hsome2; exact Hsome1 |].
    split; [intros Hoff; rewrite (Hoff2 Hoff); exact (Hoff1 Hoff) |].
    exists (suffix1 ++ suffix2).
    split; [rewrite Hlog2, Hlog1, <- app_assoc; reflexivity |].
    split.
    { rewrite count_calls_app, Hadd1, Hadd2. cbn [List.filter].
      destruct (tracking kModeTrack m); cbn [andb]; [| reflexivity].
      destruct (hook_registers h); reflexivity. }
    split.
    { rewrite count_calls_app, Hcmd1, Hcmd2. cbn [List.filter].
      destruct (tracking kModeTrack m); cbn [andb]; [| reflexivity].
      destruct (hook_is_command h); reflexivity. }
    split.
    { rewrite List.filter_app, Hrel1, Hrel2.
      destruct (tracking kModeTrack m); [| reflexivity].
      rewrite (hook_destroyed_cons h rest), release_calls_app. reflexivity. }
    apply Forall_app. split; assumption.
Qed.

Lemma run_hook_completes kModeTrack h m :
  (tracking kModeTrack m = true ->
   is_Some (state_tracker_ m) /\
   Forall (fun tid => is_Some (GetThreadData tid m)) (hook_threads [h])) ->
  is_Some (run_hook kModeTrack h m).
Proof.
  intros Hready.
  destruct h as [tid result riid handle wrapper | F A tid list_wrapper func args | wrapper];
    cbn [run_hook].
  - rewrite end_create_unfold.
    destruct (tracking kModeTrack m); cbn [andb]; [| eexists; reflexivity].
    destruct (creation_registers result handle) eqn:Hreg; [| eexists; reflexivity].
    apply creation_registers_true in Hreg as (_ & object & -> & _).
    destruct (Hready eq_refl) as [[tracker ->] Hdata].
    apply Forall_cons in Hdata as [[thread_data Hdata] _]. rewrite Hdata.
    eexists. reflexivity.
  - rewrite end_command_list_unfold.
    destruct (tracking kModeTrack m); [| eexists; reflexivity].
    destruct (Hready eq_refl) as [[tracker ->] Hdata].
    apply Forall_cons in Hdata as [[thread_data Hdata] _]. rewrite Hdata.
    eexists. reflexivity.
  - unfold ProcessWrapperDestroy.
    destruct (tracking kModeTrack m); [| eexists; reflexivity].
    destruct (Hready eq_refl) as [[tracker ->] _]. eexists. reflexivity.
Qed.

Lemma run_hooks_completes kModeTrack hs m :
  (tracking kModeTrack m = true ->
   is_Some (state_tracker_ m) /\
   Forall (fun tid => is_Some (GetThreadData tid m)) (hook_threads hs)) ->
  is_Some (run_hooks kModeTrack hs m).
Proof.
  revert m. induction hs as [| h rest IH]; intros m Hready.
  - eexists. reflexivity.
  - cbn [run_hooks].
    assert (Hsplit : tracking kModeTrack m = true ->
              is_Some (state_tracker_ m) /\
              Forall (fun tid => is_Some (GetThreadData tid m)) (hook_threads [h]) /\
              Forall (fun tid => is_Some (GetThreadData tid m)) (hook_threads rest)).
    { intros Htrack. destruct (Hready Htrack) as [Htracker Hdata].
      rewrite (hook_threads_cons h rest) in Hdata. apply Forall_app in Hdata. tauto. }
    destruct (run_hook_completes kModeTrack h m) as [m1 Hstep].
    { intros Htrack. destruct (Hsplit Htrack) as (Htracker & Hdata & _). tauto. }
    rewrite Hstep. cbn [mbind option_bind]. apply IH.
    destruct (run_hook_effect kModeTrack h m m1 Hstep) as (Hsame & _ & Hsome & _).
    rewrite (unchanged_outside_tracking kModeTrack m m1 Hsame). intros Htrack.
    destruct (Hsplit Htrack) as (Htracker & _ & Hdata).
    split; [apply Hsome; exact Htracker |].
    eapply Forall_impl; [exact Hdata |]. intros tid Htid. cbn beta in *.
    rewrite (unchanged_outside_thread_data m m1 tid Hsame). exact Htid.
Qed.

(** X5.  Whatever sequence of the three inline hooks completes, the
    manager differs afterwards at most in its state tracker and its trace
    sink: capture mode, thread data, mapped resources, dispatch tables,
    debug and DRED settings and the frame and content captures are what
    they were. *)
Theorem hooks_change_only_tracker_and_sink
    (kModeTrack : Z) (hs : list HookCall) (m m' : D3D12CaptureManager) :
  run_hooks kModeTrack hs m = Some m' ->
  unchanged_outside_tracker_and_sink m m'.
Proof. intros Hrun. exact (proj1 (run_hooks_effect kModeTrack hs m m' Hrun)). Qed.

Lemma hooks_change_only_tracker_and_sink_witness :
  exists m',
    run_hooks 2 sample_hooks sample_tracking_manager = Some m' /\
    GetCaptureMode m' = 3 /\ mapped_resources_ m' = ∅ /\
    GetEnableDebugLayerObjectId m' = 0.
Proof.
  eexists. split; [reflexivity |].
  destruct (hooks_change_only_tracker_and_sink 2 sample_hooks sample_tracking_manager _ eq_refl)
    as (Hmode & _ & _ & _ & _ & Hmapped & _ & _ & _ & _ & Hid & _).
  split; [exact Hmode |]. split; [exact Hmapped | exact Hid].
Defined.

(** X6.  A completed sequence of hooks has appended to the trace sink
    exactly one call record for each end-of-call hook, in call order, each
    carrying its thread and that thread's data; a wrapper destruction
    appends none, and nothing already in the sink is changed. *)
Theorem hooks_emit_one_record_per_end_of_call
    (kModeTrack : Z) (hs : list HookCall) (m m' : D3D12CaptureManager) :
  run_hooks kModeTrack hs m = Some m' ->
  trace_sink_ m' = trace_sink_ m ++ map (call_record_of m) (hook_threads hs) /\
  length (trace_sink_ m')
    = (length (trace_sink_ m) + length hs - length (hook_destroyed hs))%nat.
Proof.
  intros Hrun.
  destruct (run_hooks_effect kModeTrack hs m m' Hrun) as (_ & Hsink & _).
  split; [exact Hsink |].
  rewrite Hsink, length_app, length_map.
  assert (Hcount : (length (hook_threads hs) + length (hook_destroyed hs) = length hs)%nat).
  { clear. induction hs as [| h rest IH]; [reflexivity |].
    rewrite (hook_threads_cons h rest), (hook_destroyed_cons h rest), !length_app.
    cbn [length]. destruct h; cbn; lia. }
  lia.
Qed.

Lemma hooks_emit_one_record_per_end_of_call_witness :
  exists m',
    run_hooks 2 sample_hooks sample_tracking_manager = Some m' /\
    map record_thread (trace_sink_ m') = [0%nat; 0%nat; 0%nat].
Proof.
  eexists. split; [reflexivity |].
  destruct (hooks_emit_one_record_per_end_of_call 2 sample_hooks sample_tracking_manager
              _ eq_refl) as [Hsink _].
  rewrite Hsink. reflexivity.
Defined.

(** X7.  The hooks only ever append to the state tracker's log: after a
    completed sequence the calls received before are still there, in the
    same order, followed by the new ones; a state tracker is there
    afterwards exactly when one was there before; and no [AddEntry] among
    the new calls is for a null object. *)
Theorem hooks_only_append_to_tracker_log
    (kModeTrack : Z) (hs : list HookCall) (m m' : D3D12CaptureManager) :
  run_hooks kModeTrack hs m = Some m' ->
  (is_Some (state_tracker_ m') <-> is_Some (state_tracker_ m)) /\
  exists suffix,
    tracker_log m' = tracker_log m ++ suffix /\
    Forall entry_object_nonnull suffix.
Proof.
  intros Hrun.
  destruct (run_hooks_effect kModeTrack hs m m' Hrun)
    as (_ & _ & Hsome & _ & suffix & Hlog & _ & _ & _ & Hnonnull).
  split; [exact Hsome |]. exists suffix. split; assumption.
Qed.

Lemma hooks_only_append_to_tracker_log_witness :
  exists m' suffix,
    run_hooks 2 sample_hooks sample_tracking_manager = Some m' /\
    tracker_log m' = tracker_log sample_tracking_manager ++ suffix /\
    Forall entry_object_nonnull suffix.
Proof.
  destruct (hooks_only_append_to_tracker_log 2 sample_hooks sample_tracking_manager _ eq_refl)
    as (_ & suffix & Hlog & Hnonnull).
  eexists. exists suffix. split; [reflexivity |]. split; [exact Hlog | exact Hnonnull].
Defined.

Lemma filter_filter_implied {A : Type} (p q : A -> bool) (l : list A) :
  (forall x, p x = true -> q x = true) ->
  List.filter p (List.filter q l) = List.filter p l.
Proof.
  intros Himp. induction l as [| x l IH]; [reflexivity |].
  cbn [List.filter]. destruct (q x) eqn:Hq.
  - cbn [List.filter]. rewrite IH. reflexivity.
  - rewrite IH. destruct (p x) eqn:Hp; [| reflexivity].
    rewrite (Himp x Hp) in Hq. discriminate Hq.
Qed.

Lemma count_track_release_calls buffers :
  count_calls is_TrackRelease (release_calls buffers) = length buffers.
Proof.
  induction buffers as [| buffer rest IH]; [reflexivity |].
  change (release_calls (buffer :: rest))
    with ([RemoveEntry buffer; TrackRelease buffer] ++ release_calls rest).
  rewrite count_calls_app, IH. reflexivity.
Qed.

(** X8.  Registry accounting over a completed sequence of hooks.  In
    tracking mode the tracker has received one more [AddEntry] for each
    creation that succeeded with a non-null object, one more
    [TrackCommand] for each command-list call, and one more [RemoveEntry]
    and one more [TrackRelease] for each wrapper destruction; with
    tracking off all four numbers are what they were. *)
Theorem hooks_tracker_call_counts
    (kModeTrack : Z) (hs : list HookCall) (m m' : D3D12CaptureManager) :
  run_hooks kModeTrack hs m = Some m' ->
  let on (n : nat) : nat := if tracking kModeTrack m then n else 0%nat in
  count_calls is_AddEntry (tracker_log m')
    = (count_calls is_AddEntry (tracker_log m)
       + on (length (List.filter hook_registers hs)))%nat /\
  count_calls is_TrackCommand (tracker_log m')
    = (count_calls is_TrackCommand (tracker_log m)
       + on (length (List.filter hook_is_command hs)))%nat /\
  count_calls is_RemoveEntry (tracker_log m')
    = (count_calls is_RemoveEntry (tracker_log m) + on (length (hook_destroyed hs)))%nat /\
  count_calls is_TrackRelease (tracker_log m')
    = (count_calls is_TrackRelease (tracker_log m) + on (length (hook_destroyed hs)))%nat.
Proof.
  intros Hrun on.
  destruct (run_hooks_effect kModeTrack hs m m' Hrun)
    as (_ & _ & _ & _ & suffix & Hlog & Hadd & Hcmd & Hrel & _).
  rewrite Hlog, !count_calls_app, Hadd, Hcmd. subst on. cbn beta.
  split; [reflexivity |]. split; [reflexivity |].
  assert (Hremove : count_calls is_RemoveEntry suffix
            = count_calls is_RemoveEntry (List.filter is_release_call suffix)).
  { unfold count_calls. rewrite filter_filter_implied; [reflexivity |].
    intros c Hc. unfold is_release_call. rewrite Hc. reflexivity. }
  assert (Hrelease : count_calls is_TrackRelease suffix
            = count_calls is_TrackRelease (List.filter is_release_call suffix)).
  { unfold count_calls. rewrite filter_filter_implied; [reflexivity |].
    intros c Hc. unfold is_release_call. rewrite Hc. apply orb_true_r. }
  rewrite Hremove, Hrelease, Hrel.
  destruct (tracking kModeTrack m).
  - rewrite (proj1 (count_release_calls (hook_destroyed hs))), count_track_release_calls.
    split; reflexivity.
  - split; reflexivity.
Qed.

Lemma hooks_tracker_call_counts_witness :
  exists m',
    run_hooks 2 sample_hooks sample_tracking_manager = Some m' /\
    count_calls is_AddEntry (tracker_log m') = 1%nat /\
    count_calls is_TrackCommand (tracker_log m') = 1%nat /\
    count_calls is_RemoveEntry (tracker_log m') = 1%nat.
Proof.
  eexists. split; [reflexivity |].
  destruct (hooks_tracker_call_counts 2 sample_hooks sample_tracking_manager _ eq_refl)
    as (Hadd & Hcmd & Hrem & _).
  split; [exact Hadd |]. split; [exact Hcmd | exact Hrem].
Defined.

(** X9.  However wrapper destructions are interleaved with other hooks,
    the release calls that a completed sequence adds to the tracker's log
    are, in tracking mode, exactly [RemoveEntry w] immediately followed by
    [TrackRelease w] for each destroyed wrapper [w], in the order of the
    destructions; with tracking off there are none. *)
Theorem hooks_release_calls_follow_destructions
    (kModeTrack : Z) (hs : list HookCall) (m m' : D3D12CaptureManager) :
  run_hooks kModeTrack hs m = Some m' ->
  List.filter is_release_call (tracker_log m')
    = List.filter is_release_call (tracker_log m)
      ++ (if tracking kModeTrack m then release_calls (hook_destroyed hs) else []).
Proof.
  intros Hrun.
  destruct (run_hooks_effect kModeTrack hs m m' Hrun)
    as (_ & _ & _ & _ & suffix & Hlog & _ & _ & Hrel & _).
  rewrite Hlog, List.filter_app, Hrel. reflexivity.
Qed.

Lemma hooks_release_calls_follow_destructions_witness :
  exists m',
    run_hooks 2 (HookWrapperDestroy 7 :: sample_hooks) sample_tracking_manager = Some m' /\
    List.filter is_release_call (tracker_log m')
      = [RemoveEntry 7; TrackRelease 7; RemoveEntry 4096; TrackRelease 4096].
Proof.
  eexists. split; [reflexivity |].
  exact (hooks_release_calls_follow_destructions 2 (HookWrapperDestroy 7 :: sample_hooks)
           sample_tracking_manager _ eq_refl).
Defined.

(** X10.  In a mode without the tracking bits every sequence of hooks
    completes, with or without a state tracker and thread data, and leaves
    the state tracker exactly as it was. *)
Theorem recording_only_hooks_never_touch_tracker
    (kModeTrack : Z) (hs : list HookCall) (m : D3D12CaptureManager) :
  tracking kModeTrack m = false ->
  exists m',
    run_hooks kModeTrack hs m = Some m' /\
    state_tracker_ m' = state_tracker_ m.
Proof.
  intros Hoff.
  destruct (run_hooks_completes kModeTrack hs m) as [m' Hrun].
  { intros Hon. congruence. }
  exists m'. split; [exact Hrun |].
  destruct (run_hooks_effect kModeTrack hs m m' Hrun) as (_ & _ & _ & Hsame & _).
  exact (Hsame Hoff).
Qed.

Lemma recording_only_hooks_never_touch_tracker_witness :
  exists m',
    run_hooks 2 sample_hooks sample_recording_manager = Some m' /\
    state_tracker_ m' = None.
Proof.
  exact (recording_only_hooks_never_touch_tracker 2 sample_hooks sample_recording_manager
           eq_refl).
Defined.

(** X11.  In tracking mode a sequence of hooks completes as soon as the
    manager has a state tracker and thread data for every thread that
    makes an end-of-call hook in it: no hook takes either away from a
    later one. *)
Theorem hooks_complete_when_ready
    (kModeTrack : Z) (hs : list HookCall) (m : D3D12CaptureManager) :
  (tracking kModeTrack m = true ->
   is_Some (state_tracker_ m) /\
   Forall (fun tid => is_Some (GetThreadData tid m)) (hook_threads hs)) ->
  is_Some (run_hooks kModeTrack hs m).
Proof. apply run_hooks_completes. Qed.

Lemma hooks_complete_when_ready_witness :
  is_Some (run_hooks 2 sample_hooks sample_tracking_manager).
Proof.
  apply (hooks_complete_when_ready 2 sample_hooks sample_tracking_manager).
  intros _. split; [eexists; reflexivity |].
  repeat constructor; eexists; reflexivity.
Defined.

(** ** State tracker lifetime and dispatch tables *)



(** X13.  Each dispatch table getter returns what the matching [Init]
    call stored last and is blind to the other table; the two [Init] calls
    commute; and the tables stored at initialisation are still the ones
    the getters return after any completed sequence of hooks. *)
Theorem dispatch_tables_round_trip
    (kModeTrack : Z) (dxgi dxgi' d3d12 : DispatchTable) (m : D3D12CaptureManager) :
  GetDxgiDispatchTable (InitDxgiDispatchTable dxgi m) = dxgi /\
  GetD3D12DispatchTable (InitD3D12DispatchTable d3d12 m) = d3d12 /\
  GetD3D12DispatchTable (InitDxgiDispatchTable dxgi m) = GetD3D12DispatchTable m /\
  GetDxgiDispatchTable (InitD3D12DispatchTable d3d12 m) = GetDxgiDispatchTable m /\
  InitDxgiDispatchTable dxgi (InitDxgiDispatchTable dxgi' m) = InitDxgiDispatchTable dxgi m /\
  InitDxgiDispatchTable dxgi (InitD3D12DispatchTable d3d12 m)
  = InitD3D12DispatchTable d3d12 (InitDxgiDispatchTable dxgi m) /\
  (forall (hs : list HookCall) (m' : D3D12CaptureManager),
     run_hooks kModeTrack hs (InitDxgiDispatchTable dxgi (InitD3D12DispatchTable d3d12 m))
       = Some m' ->
     GetDxgiDispatchTable m' = dxgi /\ GetD3D12DispatchTable m' = d3d12).
Proof.
  do 6 (split; [reflexivity |]).
  intros hs m' Hrun.
  destruct (run_hooks_effect kModeTrack hs _ m' Hrun)
    as ((_ & _ & _ & _ & _ & _ & Hdxgi & Hd3d12 & _) & _).
  unfold GetDxgiDispatchTable, GetD3D12DispatchTable. rewrite Hdxgi, Hd3d12.
  split; reflexivity.
Qed.

Lemma dispatch_tables_round_trip_witness :
  exists m',
    run_hooks 2 sample_hooks
      (InitDxgiDispatchTable [11; 12] (InitD3D12DispatchTable [21] sample_tracking_manager))
      = Some m' /\
    GetDxgiDispatchTable m' = [11; 12] /\ GetD3D12DispatchTable m' = [21].
Proof.
  eexists. split; [reflexivity |].
  destruct (dispatch_tables_round_trip 2 [11; 12] [] [21] sample_tracking_manager)
    as (_ & _ & _ & _ & _ & _ & Hkept).
  exact (Hkept sample_hooks _ eq_refl).
Defined.
